(** * The Dashboard Builder page, embedded in Rocq

    The page keeps a grid of widgets ([DashboardState]: one array of
    widgets and one array of layout items per responsive breakpoint), the
    dashboard's name and description, and talks to a persistence service,
    a router and a notification channel.  The state transformers of the
    page ([addWidget], [updateWidget], [onLayoutChange]) are pure
    functions on [DashboardState]; the handlers with side effects
    ([saveDashboard], the load effect, [exportDashboard]) are programs of
    a state monad over a [World] that holds the page's hooks, the
    service's store and a log of the notifications, navigations and
    downloads issued.

    Beside the page, the development embeds the route table of the
    application, to see where the page's navigations lead, and the
    functions of the authentication context, as trees of the requests
    they await and the local effects they do. *)

From stdpp Require Import base strings list gmap pretty.
From Stdlib Require Import ZArith Ascii.

Set Warnings "-register-all".

(** ** JavaScript numbers

    The grid counts cells, so the finite numbers the page handles are
    integers; the IEEE specials are kept because the page itself writes
    [Infinity] (the append-at-end row) and tests for [NaN].  Clock
    readings ([Date.now()]) are integers as well. *)

Inductive number :=
| Finite (z : Z)
| Infinity
| NegInfinity
| NaN.

#[global] Instance number_eq_dec : EqDecision number.
Proof. solve_decision. Defined.

(** [Math.min] on two arguments: [NaN] is contagious. *)
Definition Math_min (a b : number) : number :=
  match a, b with
  | NaN, _ | _, NaN => NaN
  | NegInfinity, _ | _, NegInfinity => NegInfinity
  | Infinity, c => c
  | c, Infinity => c
  | Finite p, Finite q => Finite (Z.min p q)
  end.

(** The comparison [a <= b] of JavaScript ([false] as soon as one side is
    [NaN]). *)
Definition number_le (a b : number) : bool :=
  match a, b with
  | NaN, _ | _, NaN => false
  | NegInfinity, _ => true
  | _, Infinity => true
  | Finite p, Finite q => (p <=? q)%Z
  | _, _ => false
  end.

(** Truthiness of a string: only the empty string is falsy. *)
Definition truthy (s : string) : bool :=
  match s with
  | EmptyString => false
  | String _ _ => true
  end.

(** [s || d] on strings. *)
Definition or_else (s d : string) : string :=
  if truthy s then s else d.

(** ** Values of type [any]: query result cells, widget data *)

Inductive value :=
| VUndefined
| VNull
| VBool (b : bool)
| VNumber (n : number)
| VString (s : string)
| VArray (items : list value)
| VObject (props : list (string * value)).

(** Own properties of an object, in enumeration order; a read finds the
    property by its key. *)
Fixpoint Get {A : Type} (props : list (string * A)) (key : string) : option A :=
  match props with
  | [] => None
  | (k, v) :: rest => if String.eqb k key then Some v else Get rest key
  end.

Definition Object_keys {A : Type} (props : list (string * A)) : list string :=
  map fst props.

(** ** JSON

    [JSON.stringify] walks a value and writes a text; [JSON.parse] reads
    the text back.  The text is kept here as the document it denotes
    together with the indentation it was written with: what
    [JSON.stringify] omits or rewrites ([undefined] properties, numbers
    that are not finite) is decided on the way from [value] to [json]. *)

Inductive json :=
| JNull
| JBool (b : bool)
| JNumber (z : Z)
| JString (s : string)
| JArray (items : list json)
| JObject (props : list (string * json)).

(** The property serialisation of [JSON.stringify]: [None] is
    [undefined], the value that has no JSON text.  An [undefined] property
    of an object is left out, an [undefined] item of an array and a number
    that is not finite are written [null]. *)
Fixpoint toJSON (v : value) : option json :=
  match v with
  | VUndefined => None
  | VNull => Some JNull
  | VBool b => Some (JBool b)
  | VNumber (Finite z) => Some (JNumber z)
  | VNumber _ => Some JNull
  | VString s => Some (JString s)
  | VArray items =>
      Some (JArray (map (fun e => default JNull (toJSON e)) items))
  | VObject props =>
      Some (JObject
        (omap (fun kv => pair (fst kv) <$> toJSON (snd kv)) props))
  end.

Record JSONText := { document : option json; space : nat }.

(** [JSON.stringify(v, null, space)] *)
Definition JSON_stringify (v : value) (space : nat) : JSONText :=
  {| document := toJSON v; space := space |}.

(** [JSON.parse(text)] *)
Definition JSON_parse (text : JSONText) : option json := document text.

(** ** Types of the page *)

Inductive BreakPoint := lg | md | sm | xs | xxs.

Inductive WidgetType := bar | pie | line | table | area.

#[global] Instance WidgetType_eq_dec : EqDecision WidgetType.
Proof. solve_decision. Defined.

Module Aggregation.
Inductive t := sum | avg | count | min | max.
End Aggregation.

Module LayoutItem.
Record t := mk { i : string; x : number; y : number; w : number; h : number }.
End LayoutItem.

Module Layout.
Record t := mk {
  lg : list LayoutItem.t;
  md : list LayoutItem.t;
  sm : list LayoutItem.t;
  xs : list LayoutItem.t;
  xxs : list LayoutItem.t
}.
End Layout.

(** One result set of a saved query: [results] holds its rows, each row
    an object from column name to cell. *)
Module ResultSet.
Record t := mk { results : option (list (list (string * value))) }.
End ResultSet.

Module SavedQuery.
Record t := mk {
  id : string;
  title : string;
  description : option string;
  query_text : string;
  results : option (list ResultSet.t)
}.
End SavedQuery.

Module VisualizationConfig.
Record t := mk {
  type : WidgetType;
  xAxis : option string;
  yAxis : option string;
  aggregation : option Aggregation.t
}.
End VisualizationConfig.

Module Widget.
Record t := mk {
  id : string;
  type : WidgetType;
  title : string;
  savedQuery : option SavedQuery.t;
  visualConfig : option VisualizationConfig.t;
  x : number;
  y : number;
  w : number;
  h : number;
  data : option value
}.
End Widget.

Module DashboardState.
Record t := mk { layouts : Layout.t; widgets : list Widget.t }.
End DashboardState.

(** [Partial<Widget>]: every field is either absent ([None]) or supplied;
    an optional field can be supplied as [undefined], which is how the
    page unbinds a query. *)
Module PartialWidget.
Record t := mk {
  id : option string;
  type : option WidgetType;
  title : option string;
  savedQuery : option (option SavedQuery.t);
  visualConfig : option (option VisualizationConfig.t);
  x : option number;
  y : option number;
  w : option number;
  h : option number;
  data : option (option value)
}.
Definition empty : t := mk None None None None None None None None None None.
End PartialWidget.

(** ** Constants *)

Definition RPC_ENDPOINT (VITE_STARKNET_RPC_URL : option string) : string :=
  match VITE_STARKNET_RPC_URL with
  | Some url => or_else url "https://starknet-mainnet.reddio.com/rpc/v0_7"
  | None => "https://starknet-mainnet.reddio.com/rpc/v0_7"
  end.

Definition BREAKPOINTS (b : BreakPoint) : number :=
  match b with
  | lg => Finite 1200
  | md => Finite 996
  | sm => Finite 768
  | xs => Finite 480
  | xxs => Finite 0
  end.

Definition COLS (b : BreakPoint) : number :=
  match b with
  | lg => Finite 12
  | md => Finite 10
  | sm => Finite 6
  | xs => Finite 4
  | xxs => Finite 2
  end.

Definition INITIAL_LAYOUT : Layout.t := Layout.mk [] [] [] [] [].

Definition widgetTypes : list (WidgetType * string) :=
  [(bar, "Bar Chart"); (pie, "Pie Chart"); (line, "Line Chart");
   (area, "Area Chart"); (table, "Table")].

(** The layout array of one breakpoint. *)
Definition layout_of (b : BreakPoint) (l : Layout.t) : list LayoutItem.t :=
  match b with
  | lg => Layout.lg l
  | md => Layout.md l
  | sm => Layout.sm l
  | xs => Layout.xs l
  | xxs => Layout.xxs l
  end.

(** The state a fresh page starts from. *)
Definition initialDashboardState : DashboardState.t :=
  DashboardState.mk INITIAL_LAYOUT [].

(** A [WidgetType] inside a template literal. *)
Definition WidgetType_toString (t : WidgetType) : string :=
  match t with
  | bar => "bar"
  | pie => "pie"
  | line => "line"
  | table => "table"
  | area => "area"
  end.

(** ** State transformers *)

(** The widget [addWidget] builds; [now] is the reading of [Date.now()]. *)
Definition newWidget (now : Z) (type : WidgetType) : Widget.t :=
  {| Widget.id := "widget-" +:+ pretty now;
     Widget.type := type;
     Widget.title := "New " +:+ WidgetType_toString type +:+ " Widget";
     Widget.savedQuery := None;
     Widget.visualConfig := None;
     Widget.x := Finite 0;
     Widget.y := Infinity;
     Widget.w := Finite 6;
     Widget.h := Finite 4;
     Widget.data := None |}.

(** [{...layout, w: v}] *)
Definition with_w (layout : LayoutItem.t) (v : number) : LayoutItem.t :=
  {| LayoutItem.i := LayoutItem.i layout;
     LayoutItem.x := LayoutItem.x layout;
     LayoutItem.y := LayoutItem.y layout;
     LayoutItem.w := v;
     LayoutItem.h := LayoutItem.h layout |}.

Definition addWidget (now : Z) (type : WidgetType)
    (prev : DashboardState.t) : DashboardState.t :=
  let newWidget := newWidget now type in
  let layout :=
    {| LayoutItem.i := Widget.id newWidget;
       LayoutItem.x := Widget.x newWidget;
       LayoutItem.y := Widget.y newWidget;
       LayoutItem.w := Widget.w newWidget;
       LayoutItem.h := Widget.h newWidget |} in
  let layouts := DashboardState.layouts prev in
  {| DashboardState.layouts :=
       {| Layout.lg := Layout.lg layouts ++ [layout];
          Layout.md := Layout.md layouts
            ++ [with_w layout (Math_min (LayoutItem.w layout) (COLS md))];
          Layout.sm := Layout.sm layouts
            ++ [with_w layout (Math_min (LayoutItem.w layout) (COLS sm))];
          Layout.xs := Layout.xs layouts
            ++ [with_w layout (Math_min (LayoutItem.w layout) (COLS xs))];
          Layout.xxs := Layout.xxs layouts
            ++ [with_w layout (Math_min (LayoutItem.w layout) (COLS xxs))] |};
     DashboardState.widgets := DashboardState.widgets prev ++ [newWidget] |}.

(** [{...w, ...updates}]: a supplied field wins, an absent one keeps the
    widget's. *)
Definition merge (w : Widget.t) (updates : PartialWidget.t) : Widget.t :=
  {| Widget.id := default (Widget.id w) (PartialWidget.id updates);
     Widget.type := default (Widget.type w) (PartialWidget.type updates);
     Widget.title := default (Widget.title w) (PartialWidget.title updates);
     Widget.savedQuery :=
       default (Widget.savedQuery w) (PartialWidget.savedQuery updates);
     Widget.visualConfig :=
       default (Widget.visualConfig w) (PartialWidget.visualConfig updates);
     Widget.x := default (Widget.x w) (PartialWidget.x updates);
     Widget.y := default (Widget.y w) (PartialWidget.y updates);
     Widget.w := default (Widget.w w) (PartialWidget.w updates);
     Widget.h := default (Widget.h w) (PartialWidget.h updates);
     Widget.data := default (Widget.data w) (PartialWidget.data updates) |}.

Definition updateWidget (id : string) (updates : PartialWidget.t)
    (prev : DashboardState.t) : DashboardState.t :=
  {| DashboardState.layouts := DashboardState.layouts prev;
     DashboardState.widgets :=
       map (fun w => if String.eqb (Widget.id w) id then merge w updates else w)
           (DashboardState.widgets prev) |}.

Definition onLayoutChange (layouts : Layout.t)
    (prev : DashboardState.t) : DashboardState.t :=
  {| DashboardState.layouts := layouts;
     DashboardState.widgets := DashboardState.widgets prev |}.

Definition serializeDashboardState (state : DashboardState.t) : DashboardState.t :=
  {| DashboardState.layouts := DashboardState.layouts state;
     DashboardState.widgets := DashboardState.widgets state |}.

(** ** The persisted dashboard *)

Module PersistedWidget.
Record t := mk {
  id : string;
  type : WidgetType;
  title : string;
  query : option string;
  options : option VisualizationConfig.t;
  data : option value
}.
End PersistedWidget.

Module Dashboard.
Record t := mk {
  id : string;
  name : string;
  description : string;
  layout : Layout.t;
  widgets : list PersistedWidget.t;
  createdAt : string;
  updatedAt : string
}.
End Dashboard.

(** ** The world the handlers run in *)

Inductive Variant := default_variant | destructive.

Module Toast.
Record t := mk { title : string; description : string; variant : Variant }.
End Toast.

(** What the page does to its surroundings, in the order it does it: a
    notification, a route change, a console message, a click on a
    download link, a call of the persistence service. *)
Inductive Effect :=
| toasted (t : Toast.t)
| navigated (path : string)
| console_error (message : string)
| downloaded (dataStr : JSONText) (download : string)
| service_saveDashboard (record : Dashboard.t)
| service_getDashboardById (id : string).

(** The hooks of the component. *)
Module Page.
Record t := mk {
  dashboardName : string;
  dashboardDescription : string;
  dashboardState : DashboardState.t;
  showQueryDialog : bool;
  selectedWidgetId : option string;
  showDashboardsDialog : bool
}.
End Page.

Definition initialPage : Page.t :=
  Page.mk "" "" initialDashboardState false None false.

Module World.
Record t := mk {
  page : Page.t;
  store : gmap string Dashboard.t;
  log : list Effect
}.
End World.

Definition M (A : Type) : Type := World.t -> A * World.t.

Definition ret {A : Type} (a : A) : M A := fun w => (a, w).

Definition bind {A B : Type} (m : M A) (k : A -> M B) : M B :=
  fun w => let (a, w') := m w in k a w'.

Declare Scope handler_scope.
Delimit Scope handler_scope with handler.
Notation "'let*' x ':=' m 'in' k" := (bind m (fun x => k))
  (at level 10, x name, m at level 100, k at level 200) : handler_scope.
Notation "m ';;;' k" := (bind m (fun _ => k))
  (at level 100, k at level 200, right associativity) : handler_scope.

(** The world after a handler has run. *)
Definition exec {A : Type} (m : M A) (w : World.t) : World.t := snd (m w).

Definition getPage : M Page.t := fun w => (World.page w, w).

Definition setPage (f : Page.t -> Page.t) : M unit :=
  fun w => (tt, World.mk (f (World.page w)) (World.store w) (World.log w)).

Definition emit (e : Effect) : M unit :=
  fun w => (tt, World.mk (World.page w) (World.store w) (World.log w ++ [e])).

Definition toast (t : Toast.t) : M unit := emit (toasted t).

Definition navigate (path : string) : M unit := emit (navigated path).

Definition setDashboardName (name : string) : M unit :=
  setPage (fun p =>
    Page.mk name (Page.dashboardDescription p) (Page.dashboardState p)
      (Page.showQueryDialog p) (Page.selectedWidgetId p)
      (Page.showDashboardsDialog p)).

Definition setDashboardDescription (description : string) : M unit :=
  setPage (fun p =>
    Page.mk (Page.dashboardName p) description (Page.dashboardState p)
      (Page.showQueryDialog p) (Page.selectedWidgetId p)
      (Page.showDashboardsDialog p)).

(** [setDashboardState] takes the updater form [prev => ...]. *)
Definition setDashboardState (f : DashboardState.t -> DashboardState.t) : M unit :=
  setPage (fun p =>
    Page.mk (Page.dashboardName p) (Page.dashboardDescription p)
      (f (Page.dashboardState p))
      (Page.showQueryDialog p) (Page.selectedWidgetId p)
      (Page.showDashboardsDialog p)).

Definition setShowDashboardsDialog (b : bool) : M unit :=
  setPage (fun p =>
    Page.mk (Page.dashboardName p) (Page.dashboardDescription p)
      (Page.dashboardState p) (Page.showQueryDialog p)
      (Page.selectedWidgetId p) b).

(** Modelled from the spec: [DashboardService.saveDashboard], whose code
    is not part of the sources at hand.  The service is a key-value store
    keyed by dashboard id and saving is an upsert by [record.id].  The
    call is logged. *)
Definition DashboardService_saveDashboard (record : Dashboard.t) : M unit :=
  fun w =>
    (tt, World.mk (World.page w)
           (<[Dashboard.id record := record]> (World.store w))
           (World.log w ++ [service_saveDashboard record])).

(** Modelled from the spec: [DashboardService.getDashboardById], whose
    code is not part of the sources at hand.  It yields the record stored
    under the id, or [undefined].  The call is logged. *)
Definition DashboardService_getDashboardById (id : string) : M (option Dashboard.t) :=
  fun w =>
    (World.store w !! id,
     World.mk (World.page w) (World.store w)
       (World.log w ++ [service_getDashboardById id])).

(** ** Handlers *)

Section Handlers.
Local Open Scope handler_scope.

Definition persistWidget (widget : Widget.t) : PersistedWidget.t :=
  {| PersistedWidget.id := Widget.id widget;
     PersistedWidget.type := Widget.type widget;
     PersistedWidget.title := Widget.title widget;
     PersistedWidget.query := SavedQuery.query_text <$> Widget.savedQuery widget;
     PersistedWidget.options := Widget.visualConfig widget;
     PersistedWidget.data := Widget.data widget |}.

(** [dashboardId || `dashboard-${Date.now()}`] *)
Definition dashboardId_or_new (dashboardId : option string) (now : Z) : string :=
  match dashboardId with
  | Some id => or_else id ("dashboard-" +:+ pretty now)
  | None => "dashboard-" +:+ pretty now
  end.

(** [!dashboardId] *)
Definition no_id (dashboardId : option string) : bool :=
  match dashboardId with
  | Some id => negb (truthy id)
  | None => true
  end.

(** [saveDashboard]: [dashboardId] is the route parameter, [now] the
    reading of [Date.now()], [createdAt] and [updatedAt] the two
    renderings of [new Date().toISOString()].  The modelled service does
    not throw, so the handler's [catch] branch has no run to take. *)
Definition saveDashboard (dashboardId : option string) (now : Z)
    (createdAt updatedAt : string) : M unit :=
  let* p := getPage in
  if negb (truthy (Page.dashboardName p)) then
    toast {| Toast.title := "Error";
             Toast.description := "Please enter a dashboard name";
             Toast.variant := destructive |}
  else
    let dashboardConfig :=
      {| Dashboard.id := dashboardId_or_new dashboardId now;
         Dashboard.name := Page.dashboardName p;
         Dashboard.description := Page.dashboardDescription p;
         Dashboard.layout := DashboardState.layouts (Page.dashboardState p);
         Dashboard.widgets :=
           map persistWidget (DashboardState.widgets (Page.dashboardState p));
         Dashboard.createdAt := createdAt;
         Dashboard.updatedAt := updatedAt |} in
    DashboardService_saveDashboard dashboardConfig ;;;
    (if no_id dashboardId
     then navigate ("/dashboard/" +:+ Dashboard.id dashboardConfig)
     else ret tt) ;;;
    toast {| Toast.title := "Success";
             Toast.description := "Dashboard saved successfully";
             Toast.variant := default_variant |}.

Definition loadHistory : M unit := setShowDashboardsDialog true.

(** The widget the load effect rebuilds from a persisted one. *)
Definition restoreWidget (widget : PersistedWidget.t) : Widget.t :=
  {| Widget.id := PersistedWidget.id widget;
     Widget.type := PersistedWidget.type widget;
     Widget.title := PersistedWidget.title widget;
     Widget.savedQuery :=
       match PersistedWidget.query widget with
       | Some query =>
           if truthy query then
             Some {| SavedQuery.id := "query-" +:+ PersistedWidget.id widget;
                     SavedQuery.title := PersistedWidget.title widget;
                     SavedQuery.query_text := query;
                     SavedQuery.description := Some "";
                     SavedQuery.results := None |}
           else None
       | None => None
       end;
     Widget.visualConfig := PersistedWidget.options widget;
     Widget.data := PersistedWidget.data widget;
     Widget.x := Finite 0;
     Widget.y := Finite 0;
     Widget.w := Finite 6;
     Widget.h := Finite 4 |}.

(** The effect run on mount and whenever the route's [id] changes. *)
Definition loadDashboardEffect (dashboardId : option string) : M unit :=
  match dashboardId with
  | None => ret tt
  | Some id =>
      if truthy id then
        let* dashboard := DashboardService_getDashboardById id in
        match dashboard with
        | Some dashboard =>
            setDashboardName (Dashboard.name dashboard) ;;;
            (if truthy (Dashboard.description dashboard)
             then setDashboardDescription (Dashboard.description dashboard)
             else ret tt) ;;;
            setDashboardState (fun _ =>
              {| DashboardState.layouts := Dashboard.layout dashboard;
                 DashboardState.widgets :=
                   map restoreWidget (Dashboard.widgets dashboard) |}) ;;;
            toast {| Toast.title := "Dashboard loaded";
                     Toast.description := "Successfully loaded dashboard";
                     Toast.variant := default_variant |}
        | None =>
            toast {| Toast.title := "Error";
                     Toast.description := "Dashboard not found";
                     Toast.variant := destructive |} ;;;
            navigate "/dashboard"
        end
      else ret tt
  end.

End Handlers.

(** ** The in-memory objects as JavaScript values

    [exportDashboard] hands the page's own objects to [JSON.stringify].
    An optional field that is unset reads [undefined]. *)

Definition optional {A : Type} (f : A -> value) (o : option A) : value :=
  match o with
  | Some a => f a
  | None => VUndefined
  end.

Definition Aggregation_toString (a : Aggregation.t) : string :=
  match a with
  | Aggregation.sum => "sum"
  | Aggregation.avg => "avg"
  | Aggregation.count => "count"
  | Aggregation.min => "min"
  | Aggregation.max => "max"
  end.

Definition LayoutItem_value (l : LayoutItem.t) : value :=
  VObject [("i", VString (LayoutItem.i l));
           ("x", VNumber (LayoutItem.x l));
           ("y", VNumber (LayoutItem.y l));
           ("w", VNumber (LayoutItem.w l));
           ("h", VNumber (LayoutItem.h l))].

Definition Layout_value (l : Layout.t) : value :=
  VObject [("lg", VArray (map LayoutItem_value (Layout.lg l)));
           ("md", VArray (map LayoutItem_value (Layout.md l)));
           ("sm", VArray (map LayoutItem_value (Layout.sm l)));
           ("xs", VArray (map LayoutItem_value (Layout.xs l)));
           ("xxs", VArray (map LayoutItem_value (Layout.xxs l)))].

Definition ResultSet_value (r : ResultSet.t) : value :=
  VObject [("results",
            optional (fun rows => VArray (map VObject rows))
                     (ResultSet.results r))].

Definition SavedQuery_value (q : SavedQuery.t) : value :=
  VObject [("id", VString (SavedQuery.id q));
           ("title", VString (SavedQuery.title q));
           ("description", optional VString (SavedQuery.description q));
           ("query_text", VString (SavedQuery.query_text q));
           ("results",
            optional (fun rs => VArray (map ResultSet_value rs))
                     (SavedQuery.results q))].

Definition VisualizationConfig_value (c : VisualizationConfig.t) : value :=
  VObject [("type", VString (WidgetType_toString (VisualizationConfig.type c)));
           ("xAxis", optional VString (VisualizationConfig.xAxis c));
           ("yAxis", optional VString (VisualizationConfig.yAxis c));
           ("aggregation",
            optional (fun a => VString (Aggregation_toString a))
                     (VisualizationConfig.aggregation c))].

Definition Widget_value (w : Widget.t) : value :=
  VObject [("id", VString (Widget.id w));
           ("type", VString (WidgetType_toString (Widget.type w)));
           ("title", VString (Widget.title w));
           ("savedQuery", optional SavedQuery_value (Widget.savedQuery w));
           ("visualConfig",
            optional VisualizationConfig_value (Widget.visualConfig w));
           ("x", VNumber (Widget.x w));
           ("y", VNumber (Widget.y w));
           ("w", VNumber (Widget.w w));
           ("h", VNumber (Widget.h w));
           ("data", optional (fun d => d) (Widget.data w))].

Definition PersistedWidget_value (w : PersistedWidget.t) : value :=
  VObject [("id", VString (PersistedWidget.id w));
           ("type", VString (WidgetType_toString (PersistedWidget.type w)));
           ("title", VString (PersistedWidget.title w));
           ("query", optional VString (PersistedWidget.query w));
           ("options",
            optional VisualizationConfig_value (PersistedWidget.options w));
           ("data", optional (fun d => d) (PersistedWidget.data w))].

Section Exporting.
Local Open Scope handler_scope.

(** [exportDashboard]: [VITE_STARKNET_RPC_URL] is the build's environment
    variable, [now] the reading of [Date.now()].  The click on the link
    whose [href] carries [dataStr] and whose [download] attribute is
    [exportName] is the download.  Values are trees, for which
    [JSON.stringify] does not throw, so the [catch] branch has no run to
    take. *)
Definition exportDashboard (VITE_STARKNET_RPC_URL : option string)
    (now : Z) : M unit :=
  let* p := getPage in
  let dashboardData :=
    VObject
      [("name", VString (Page.dashboardName p));
       ("description", VString (Page.dashboardDescription p));
       ("layouts", Layout_value (DashboardState.layouts (Page.dashboardState p)));
       ("widgets",
        VArray (map Widget_value (DashboardState.widgets (Page.dashboardState p))));
       ("rpc_endpoint", VString (RPC_ENDPOINT VITE_STARKNET_RPC_URL))] in
  let dataStr := JSON_stringify dashboardData 2 in
  let exportName :=
    or_else (Page.dashboardName p) "dashboard" +:+ "_" +:+ pretty now
      +:+ ".json" in
  emit (downloaded dataStr exportName) ;;;
  toast {| Toast.title := "Success";
           Toast.description := "Dashboard exported successfully";
           Toast.variant := default_variant |}.

End Exporting.

(** ** [Number(value)] and the axis candidates

    Strings are sequences of UTF-8 bytes. *)

Definition code (c : ascii) : N := N_of_ascii c.

Definition between (lo hi : N) (c : ascii) : bool :=
  (lo <=? code c)%N && (code c <=? hi)%N.

Definition is_dec (c : ascii) : bool := between 48 57 c.
Definition is_bin (c : ascii) : bool := between 48 49 c.
Definition is_oct (c : ascii) : bool := between 48 55 c.
Definition is_hex (c : ascii) : bool :=
  between 48 57 c || between 97 102 c || between 65 70 c.

(** White space and line terminators of one byte: TAB, LF, VT, FF, CR, SP. *)
Definition is_ws1 (c : ascii) : bool :=
  between 9 13 c || (code c =? 32)%N.

(** Of two bytes: U+00A0. *)
Definition is_ws2 (c1 c2 : ascii) : bool :=
  (code c1 =? 194)%N && (code c2 =? 160)%N.

(** Of three bytes: U+1680, U+2000 to U+200A, U+2028, U+2029, U+202F,
    U+205F, U+3000, U+FEFF. *)
Definition is_ws3 (c1 c2 c3 : ascii) : bool :=
  ((code c1 =? 225)%N && (code c2 =? 154)%N && (code c3 =? 128)%N)
  || ((code c1 =? 226)%N && (code c2 =? 128)%N
      && (between 128 138 c3 || between 168 169 c3 || (code c3 =? 175)%N))
  || ((code c1 =? 226)%N && (code c2 =? 129)%N && (code c3 =? 159)%N)
  || ((code c1 =? 227)%N && (code c2 =? 128)%N && (code c3 =? 128)%N)
  || ((code c1 =? 239)%N && (code c2 =? 187)%N && (code c3 =? 191)%N).

(** Drops the white space a string starts with. *)
Fixpoint skip_ws (s : string) : string :=
  match s with
  | EmptyString => s
  | String c1 r1 =>
      if is_ws1 c1 then skip_ws r1 else
      match r1 with
      | EmptyString => s
      | String c2 r2 =>
          if is_ws2 c1 c2 then skip_ws r2 else
          match r2 with
          | EmptyString => s
          | String c3 r3 => if is_ws3 c1 c2 c3 then skip_ws r3 else s
          end
      end
  end.

Fixpoint skip_while (p : ascii -> bool) (s : string) : string :=
  match s with
  | EmptyString => s
  | String c r => if p c then skip_while p r else s
  end.

(** One digit or more. [None]: the string does not start with a digit. *)
Definition digits1 (p : ascii -> bool) (s : string) : option string :=
  match s with
  | EmptyString => None
  | String c r => if p c then Some (skip_while p r) else None
  end.

Definition is_sign (c : ascii) : bool :=
  (code c =? 43)%N || (code c =? 45)%N.

Definition skip_sign (s : string) : string :=
  match s with
  | EmptyString => s
  | String c r => if is_sign c then r else s
  end.

Fixpoint strip_prefix (p s : string) : option string :=
  match p, s with
  | EmptyString, _ => Some s
  | String a p', String b s' => if Ascii.eqb a b then strip_prefix p' s' else None
  | String _ _, EmptyString => None
  end.

(** [ExponentPart], when the string goes on with [e] or [E]. *)
Definition exponent_opt (s : string) : option string :=
  match s with
  | EmptyString => Some s
  | String c r =>
      if (code c =? 101)%N || (code c =? 69)%N
      then digits1 is_dec (skip_sign r)
      else Some s
  end.

(** [StrUnsignedDecimalLiteral]: what follows it, or [None]. *)
Definition StrUnsignedDecimalLiteral (s : string) : option string :=
  match strip_prefix "Infinity" s with
  | Some r => Some r
  | None =>
      match s with
      | String "." r => digits1 is_dec r ≫= exponent_opt
      | _ =>
          digits1 is_dec s ≫= fun r =>
          match r with
          | String "." r' => exponent_opt (skip_while is_dec r')
          | _ => exponent_opt r
          end
      end
  end.

(** [StrNumericLiteral]: a binary, octal or hexadecimal integer without
    sign, or a decimal literal with an optional sign. *)
Definition StrNumericLiteral (s : string) : option string :=
  let decimal := StrUnsignedDecimalLiteral (skip_sign s) in
  match s with
  | String "0" (String c r) =>
      if (code c =? 120)%N || (code c =? 88)%N then digits1 is_hex r
      else if (code c =? 111)%N || (code c =? 79)%N then digits1 is_oct r
      else if (code c =? 98)%N || (code c =? 66)%N then digits1 is_bin r
      else decimal
  | _ => decimal
  end.

(** [isNaN(StringToNumber(s))]: the string is neither white space only
    nor a numeric literal between white space. *)
Definition StringToNumber_isNaN (s : string) : bool :=
  match skip_ws s with
  | EmptyString => false
  | s' =>
      match StrNumericLiteral s' with
      | Some rest => truthy (skip_ws rest)
      | None => true
      end
  end.

Definition Number_toString (n : number) : string :=
  match n with
  | Finite z => pretty z
  | Infinity => "Infinity"
  | NegInfinity => "-Infinity"
  | NaN => "NaN"
  end.

Fixpoint join (sep : string) (l : list string) : string :=
  match l with
  | [] => ""
  | [s] => s
  | s :: rest => s +:+ sep +:+ join sep rest
  end.

(** [String(v)], for values whose conversion methods are the built-in
    ones: an array joins its items with commas, [null] and [undefined]
    items giving the empty string. *)
Fixpoint ToString (v : value) : string :=
  match v with
  | VUndefined => "undefined"
  | VNull => "null"
  | VBool true => "true"
  | VBool false => "false"
  | VNumber n => Number_toString n
  | VString s => s
  | VArray items =>
      join "," (map (fun e =>
                  match e with
                  | VUndefined | VNull => ""
                  | _ => ToString e
                  end) items)
  | VObject _ => "[object Object]"
  end.

(** [isNaN(Number(v))] *)
Definition isNaN_Number (v : value) : bool :=
  match v with
  | VUndefined => true
  | VNull => false
  | VBool _ => false
  | VNumber n => bool_decide (n = NaN)
  | VString s => StringToNumber_isNaN s
  | VArray _ | VObject _ => StringToNumber_isNaN (ToString v)
  end.

(** [typeof v === 'number'] *)
Definition typeof_number (v : value) : bool :=
  match v with
  | VNumber _ => true
  | _ => false
  end.

(** [results?.[0]?.results] *)
Definition firstResults (q : SavedQuery.t) : option (list (list (string * value))) :=
  SavedQuery.results q ≫= fun rs => head rs ≫= ResultSet.results.

(** [results[0].results[0] || {}] *)
Definition firstRow (rows : list (list (string * value))) : list (string * value) :=
  default [] (head rows).

(** The items of the X-axis select. *)
Definition xAxisOptions (q : SavedQuery.t) : list string :=
  match firstResults q with
  | Some rows => Object_keys (firstRow rows)
  | None => []
  end.

(** The items of the Y-axis select. *)
Definition yAxisOptions (q : SavedQuery.t) : list string :=
  match firstResults q with
  | Some rows =>
      List.filter
        (fun key =>
           let value := default VUndefined (Get (firstRow rows) key) in
           typeof_number value || negb (isNaN_Number value))
        (Object_keys (firstRow rows))
  | None => []
  end.

(** ** Runs of [addWidget] *)

(** The states the palette can build from the empty dashboard. *)
Inductive built : DashboardState.t -> Prop :=
| built_initial : built initialDashboardState
| built_addWidget now type s : built s -> built (addWidget now type s).

(** The same runs as a function: one clock reading and one type per
    click, the first click first. *)
Definition addWidgets (calls : list (Z * WidgetType))
    (s : DashboardState.t) : DashboardState.t :=
  fold_left (fun s c => addWidget (fst c) (snd c) s) calls s.

(** The layout items of one breakpoint that carry a given key. *)
Definition items_keyed (b : BreakPoint) (key : string)
    (s : DashboardState.t) : list LayoutItem.t :=
  List.filter (fun l => String.eqb (LayoutItem.i l) key)
    (layout_of b (DashboardState.layouts s)).

(** ** Vocabulary of the properties *)

(** The fields of a widget, to say which ones an update supplies. *)
Inductive Field :=
| f_id | f_type | f_title | f_savedQuery | f_visualConfig
| f_x | f_y | f_w | f_h | f_data.

Definition present {A : Type} (o : option A) : bool :=
  match o with
  | Some _ => true
  | None => false
  end.

Definition supplied (updates : PartialWidget.t) (f : Field) : bool :=
  match f with
  | f_id => present (PartialWidget.id updates)
  | f_type => present (PartialWidget.type updates)
  | f_title => present (PartialWidget.title updates)
  | f_savedQuery => present (PartialWidget.savedQuery updates)
  | f_visualConfig => present (PartialWidget.visualConfig updates)
  | f_x => present (PartialWidget.x updates)
  | f_y => present (PartialWidget.y updates)
  | f_w => present (PartialWidget.w updates)
  | f_h => present (PartialWidget.h updates)
  | f_data => present (PartialWidget.data updates)
  end.

(** Two widgets agree on a field. *)
Definition same_field (f : Field) (a b : Widget.t) : Prop :=
  match f with
  | f_id => Widget.id a = Widget.id b
  | f_type => Widget.type a = Widget.type b
  | f_title => Widget.title a = Widget.title b
  | f_savedQuery => Widget.savedQuery a = Widget.savedQuery b
  | f_visualConfig => Widget.visualConfig a = Widget.visualConfig b
  | f_x => Widget.x a = Widget.x b
  | f_y => Widget.y a = Widget.y b
  | f_w => Widget.w a = Widget.w b
  | f_h => Widget.h a = Widget.h b
  | f_data => Widget.data a = Widget.data b
  end.

(** A widget carries the value an update supplies for a field. *)
Definition field_from (f : Field) (updates : PartialWidget.t)
    (a : Widget.t) : Prop :=
  match f with
  | f_id => PartialWidget.id updates = Some (Widget.id a)
  | f_type => PartialWidget.type updates = Some (Widget.type a)
  | f_title => PartialWidget.title updates = Some (Widget.title a)
  | f_savedQuery => PartialWidget.savedQuery updates = Some (Widget.savedQuery a)
  | f_visualConfig =>
      PartialWidget.visualConfig updates = Some (Widget.visualConfig a)
  | f_x => PartialWidget.x updates = Some (Widget.x a)
  | f_y => PartialWidget.y updates = Some (Widget.y a)
  | f_w => PartialWidget.w updates = Some (Widget.w a)
  | f_h => PartialWidget.h updates = Some (Widget.h a)
  | f_data => PartialWidget.data updates = Some (Widget.data a)
  end.

(** The update [{title: title}]. *)
Definition titleOnly (title : string) : PartialWidget.t :=
  PartialWidget.mk None None (Some title) None None None None None None None.

(** Save, then load by the id the dashboard was saved under.  [mounted]
    holds the hooks of the page at the moment the load effect runs: those
    of [initialPage] on a fresh mount, those of the page on display when
    only the route's id changes. *)
Definition save_then_load (dashboardId : option string) (now : Z)
    (createdAt updatedAt : string) (w : World.t) (mounted : Page.t) : World.t :=
  let saved := exec (saveDashboard dashboardId now createdAt updatedAt) w in
  exec (loadDashboardEffect (Some (dashboardId_or_new dashboardId now)))
       (World.mk mounted (World.store saved) (World.log saved)).

(** Title, type and visualisation of a widget come back. *)
Definition widget_survives (widget loaded : Widget.t) : Prop :=
  Widget.title loaded = Widget.title widget
  /\ Widget.type loaded = Widget.type widget
  /\ Widget.visualConfig loaded = Widget.visualConfig widget.

(** The loaded widget's query is the synthetic reference to the text of
    the query [q]. *)
Definition synthetic_query (widget : Widget.t) (q : SavedQuery.t)
    (loaded : Widget.t) : Prop :=
  exists q',
    Widget.savedQuery loaded = Some q'
    /\ SavedQuery.id q' = "query-" +:+ Widget.id widget
    /\ SavedQuery.query_text q' = SavedQuery.query_text q
    /\ SavedQuery.description q' = Some "".

(** The round trip as the specification words it: everything comes back,
    and every bound query comes back as its synthetic reference. *)
Definition round_trip_as_specified (before after : Page.t) : Prop :=
  Page.dashboardName after = Page.dashboardName before
  /\ Page.dashboardDescription after = Page.dashboardDescription before
  /\ DashboardState.layouts (Page.dashboardState after) =
     DashboardState.layouts (Page.dashboardState before)
  /\ Forall2
       (fun widget loaded =>
          widget_survives widget loaded
          /\ forall q, Widget.savedQuery widget = Some q ->
               synthetic_query widget q loaded)
       (DashboardState.widgets (Page.dashboardState before))
       (DashboardState.widgets (Page.dashboardState after)).

(** The [id] property of an exported widget. *)
Definition json_id (j : json) : option json :=
  match j with
  | JObject props => Get props "id"
  | _ => None
  end.

(** The keys of a JSON object. *)
Definition json_keys (j : json) : list string :=
  match j with
  | JObject props => Object_keys props
  | _ => []
  end.

(** The record [saveDashboard] hands to the service for a page. *)
Definition dashboardConfig (dashboardId : option string) (now : Z)
    (createdAt updatedAt : string) (p : Page.t) : Dashboard.t :=
  {| Dashboard.id := dashboardId_or_new dashboardId now;
     Dashboard.name := Page.dashboardName p;
     Dashboard.description := Page.dashboardDescription p;
     Dashboard.layout := DashboardState.layouts (Page.dashboardState p);
     Dashboard.widgets :=
       map persistWidget (DashboardState.widgets (Page.dashboardState p));
     Dashboard.createdAt := createdAt;
     Dashboard.updatedAt := updatedAt |}.

(** The notifications of the handlers. *)
Definition nameRequired : Toast.t :=
  Toast.mk "Error" "Please enter a dashboard name" destructive.
Definition savedToast : Toast.t :=
  Toast.mk "Success" "Dashboard saved successfully" default_variant.
Definition loadedToast : Toast.t :=
  Toast.mk "Dashboard loaded" "Successfully loaded dashboard" default_variant.
Definition notFound : Toast.t :=
  Toast.mk "Error" "Dashboard not found" destructive.
Definition exportedToast : Toast.t :=
  Toast.mk "Success" "Dashboard exported successfully" default_variant.

(** ** Sample data *)

Definition sampleQuery (query_text : string) : SavedQuery.t :=
  SavedQuery.mk "q-17" "Daily volume" (Some "Volume per day") query_text None.

Definition sampleConfig : VisualizationConfig.t :=
  VisualizationConfig.mk bar (Some "day") (Some "volume")
    (Some Aggregation.sum).

Definition sampleWidget (query_text : string) : Widget.t :=
  Widget.mk "widget-1000" bar "Volume" (Some (sampleQuery query_text))
    (Some sampleConfig) (Finite 0) (Finite 0) (Finite 6) (Finite 4) None.

Definition sampleItem (w : Z) : LayoutItem.t :=
  LayoutItem.mk "widget-1000" (Finite 0) (Finite 0) (Finite w) (Finite 4).

Definition sampleState (query_text : string) : DashboardState.t :=
  DashboardState.mk
    (Layout.mk [sampleItem 6] [sampleItem 6] [sampleItem 6] [sampleItem 4]
       [sampleItem 2])
    [sampleWidget query_text].

(** A page named Fees with one widget bound to a query. *)
Definition samplePage (description query_text : string) : Page.t :=
  Page.mk "Fees" description (sampleState query_text) false None false.

Definition sampleWorld (description query_text : string) : World.t :=
  World.mk (samplePage description query_text) ∅ [].

(** The hooks of a page that shows another dashboard. *)
Definition otherPage : Page.t :=
  Page.mk "Bridges" "Bridge inflows" initialDashboardState false None false.

(** A dashboard stored without a description. *)
Definition storedDashboard : Dashboard.t :=
  Dashboard.mk "dashboard-7" "Fees" ""
    (DashboardState.layouts (sampleState "select 1"))
    (map persistWidget (DashboardState.widgets (sampleState "select 1")))
    "2024-01-01T00:00:00.000Z" "2024-01-01T00:00:00.000Z".

(** ** The configuration panel and the save dialog *)

Definition setSelectedWidgetId (id : option string) : M unit :=
  setPage (fun p =>
    Page.mk (Page.dashboardName p) (Page.dashboardDescription p)
      (Page.dashboardState p) (Page.showQueryDialog p) id
      (Page.showDashboardsDialog p)).

Definition setShowQueryDialog (b : bool) : M unit :=
  setPage (fun p =>
    Page.mk (Page.dashboardName p) (Page.dashboardDescription p)
      (Page.dashboardState p) b (Page.selectedWidgetId p)
      (Page.showDashboardsDialog p)).

(** The list of saved queries the query dialog offers: the hook is
    created with the empty array and has no setter. *)
Definition savedQueries : list SavedQuery.t := [].

(** [dashboardState.widgets.find(w => w.id === selectedWidgetId)]; no
    widget's id is [null]. *)
Definition selectedWidgetData (s : DashboardState.t)
    (selectedWidgetId : option string) : option Widget.t :=
  match selectedWidgetId with
  | Some id =>
      List.find (fun w => String.eqb (Widget.id w) id)
        (DashboardState.widgets s)
  | None => None
  end.

(** The update of the "Change Query" button. *)
Definition unbindQuery : PartialWidget.t :=
  PartialWidget.mk None None None (Some None) (Some None)
    None None None None None.

(** The update of a click on a query of the dialog. *)
Definition bindQuery (query : SavedQuery.t) : PartialWidget.t :=
  PartialWidget.mk None None None (Some (Some query)) None
    None None None None None.

(** The update of the visualisation type select:
    [{visualConfig: {...selectedWidgetData.visualConfig, type: value}}]. *)
Definition retype (selected : Widget.t) (value : WidgetType) : PartialWidget.t :=
  PartialWidget.mk None None None None
    (Some (Some
       {| VisualizationConfig.type := value;
          VisualizationConfig.xAxis :=
            Widget.visualConfig selected ≫= VisualizationConfig.xAxis;
          VisualizationConfig.yAxis :=
            Widget.visualConfig selected ≫= VisualizationConfig.yAxis;
          VisualizationConfig.aggregation :=
            Widget.visualConfig selected ≫= VisualizationConfig.aggregation |}))
    None None None None None.

Section Panel.
Local Open Scope handler_scope.

(** The click on a query of the dialog. *)
Definition selectQuery (query : SavedQuery.t) : M unit :=
  let* p := getPage in
  match selectedWidgetData (Page.dashboardState p) (Page.selectedWidgetId p) with
  | Some selected =>
      setDashboardState (updateWidget (Widget.id selected) (bindQuery query)) ;;;
      setShowQueryDialog false
  | None => ret tt
  end.

(** The [onSave] callback handed to the save dialog:
    [setDashboardName(name); setDashboardDescription(description);
    saveDashboard()].  The [saveDashboard] it calls is the closure of the
    render that drew the dialog, so it reads the hooks of that render;
    the two setters only take effect for the next render. *)
Definition onSave (dashboardId : option string) (now : Z)
    (createdAt updatedAt : string) (name description : string) : M unit :=
  fun w =>
    let rendered := World.page w in
    let w1 :=
      exec (setDashboardName name ;;; setDashboardDescription description) w in
    let w2 :=
      exec (saveDashboard dashboardId now createdAt updatedAt)
           (World.mk rendered (World.store w1) (World.log w1)) in
    (tt, World.mk (World.page w1) (World.store w2) (World.log w2)).

End Panel.

(** [{...u1, ...u2}] on two updates: the later one wins where both
    supply a field. *)
Definition later {A : Type} (a b : option A) : option A :=
  match b with
  | Some _ => b
  | None => a
  end.

Definition override (u1 u2 : PartialWidget.t) : PartialWidget.t :=
  {| PartialWidget.id := later (PartialWidget.id u1) (PartialWidget.id u2);
     PartialWidget.type := later (PartialWidget.type u1) (PartialWidget.type u2);
     PartialWidget.title := later (PartialWidget.title u1) (PartialWidget.title u2);
     PartialWidget.savedQuery :=
       later (PartialWidget.savedQuery u1) (PartialWidget.savedQuery u2);
     PartialWidget.visualConfig :=
       later (PartialWidget.visualConfig u1) (PartialWidget.visualConfig u2);
     PartialWidget.x := later (PartialWidget.x u1) (PartialWidget.x u2);
     PartialWidget.y := later (PartialWidget.y u1) (PartialWidget.y u2);
     PartialWidget.w := later (PartialWidget.w u1) (PartialWidget.w u2);
     PartialWidget.h := later (PartialWidget.h u1) (PartialWidget.h u2);
     PartialWidget.data := later (PartialWidget.data u1) (PartialWidget.data u2) |}.

(** ** The page as a transition system *)

(** The updates the page hands to [updateWidget]: a title, a
    visualisation, or a query that is [undefined] or an item of
    [savedQueries]; never an id, a type, a position, a size or data. *)
Definition page_update (updates : PartialWidget.t) : Prop :=
  PartialWidget.id updates = None
  /\ PartialWidget.type updates = None
  /\ PartialWidget.x updates = None /\ PartialWidget.y updates = None
  /\ PartialWidget.w updates = None /\ PartialWidget.h updates = None
  /\ PartialWidget.data updates = None
  /\ match PartialWidget.savedQuery updates with
     | Some (Some query) => query ∈ savedQueries
     | _ => True
     end.

(** One event of the page: a handler or an effect runs.  The route's id
    and the clock are whatever they are when the event happens. *)
Inductive step : World.t -> World.t -> Prop :=
| step_addWidget now type w :
    step w (exec (setDashboardState (addWidget now type)) w)
| step_updateWidget id updates w :
    page_update updates ->
    step w (exec (setDashboardState (updateWidget id updates)) w)
| step_onLayoutChange layouts w :
    step w (exec (setDashboardState (onLayoutChange layouts)) w)
| step_setDashboardName name w :
    step w (exec (setDashboardName name) w)
| step_setDashboardDescription description w :
    step w (exec (setDashboardDescription description) w)
| step_setSelectedWidgetId id w :
    step w (exec (setSelectedWidgetId (Some id)) w)
| step_setShowQueryDialog b w :
    step w (exec (setShowQueryDialog b) w)
| step_selectQuery query w :
    query ∈ savedQueries -> step w (exec (selectQuery query) w)
| step_saveDashboard dashboardId now createdAt updatedAt w :
    step w (exec (saveDashboard dashboardId now createdAt updatedAt) w)
| step_onSave dashboardId now createdAt updatedAt name description w :
    step w (exec (onSave dashboardId now createdAt updatedAt name description) w)
| step_loadHistory w :
    step w (exec loadHistory w)
| step_loadDashboardEffect dashboardId w :
    step w (exec (loadDashboardEffect dashboardId) w)
| step_exportDashboard VITE_STARKNET_RPC_URL now w :
    step w (exec (exportDashboard VITE_STARKNET_RPC_URL now) w).

(** A bound query as the load effect builds it. *)
Definition synthetic (widget : Widget.t) (q : SavedQuery.t) : Prop :=
  SavedQuery.id q = "query-" +:+ Widget.id widget
  /\ truthy (SavedQuery.query_text q) = true
  /\ SavedQuery.description q = Some ""
  /\ SavedQuery.results q = None.

(** A widget whose own position and size are the defaults. *)
Definition default_geometry (widget : Widget.t) : Prop :=
  Widget.x widget = Finite 0
  /\ (Widget.y widget = Infinity \/ Widget.y widget = Finite 0)
  /\ Widget.w widget = Finite 6
  /\ Widget.h widget = Finite 4.

(** The state the load effect sets for a stored dashboard. *)
Definition loadedState (d : Dashboard.t) : DashboardState.t :=
  {| DashboardState.layouts := Dashboard.layout d;
     DashboardState.widgets := map restoreWidget (Dashboard.widgets d) |}.

Definition BreakPoint_name (b : BreakPoint) : string :=
  match b with
  | lg => "lg"
  | md => "md"
  | sm => "sm"
  | xs => "xs"
  | xxs => "xxs"
  end.

(** The [y] property of an exported object. *)
Definition json_y (j : json) : option json :=
  match j with
  | JObject props => Get props "y"
  | _ => None
  end.

(** The layout arrays and the widget array are in step: every
    breakpoint lists the widgets' ids, in the widgets' order. *)
Definition in_step (s : DashboardState.t) : Prop :=
  forall b,
    map LayoutItem.i (layout_of b (DashboardState.layouts s)) =
    map Widget.id (DashboardState.widgets s).

(** What holds of the widgets all along a run of the page: their own
    position and size are the defaults, and a bound query is one the load
    effect built. *)
Definition tame (s : DashboardState.t) : Prop :=
  Forall (fun widget =>
            default_geometry widget
            /\ forall q, Widget.savedQuery widget = Some q -> synthetic widget q)
         (DashboardState.widgets s).

(** A string of one decimal digit or more. *)
Definition decimal_digits (s : string) : Prop :=
  exists c r, s = String c r /\ is_dec c = true /\ skip_while is_dec r = "".

(** ** What the panel shows *)

(** [widget.visualConfig?.type || widget.type], the type the chart and
    the visualisation select go by. *)
Definition chartType (widget : Widget.t) : WidgetType :=
  match Widget.visualConfig widget with
  | Some c => VisualizationConfig.type c
  | None => Widget.type widget
  end.

(** The aggregation select is drawn when
    [visualConfig?.type === 'bar' || visualConfig?.type === 'pie']. *)
Definition aggregationShown (widget : Widget.t) : bool :=
  match Widget.visualConfig widget with
  | Some c =>
      bool_decide (VisualizationConfig.type c = bar)
      || bool_decide (VisualizationConfig.type c = pie)
  | None => false
  end.

(** The aggregation handed to the chart: [widget.visualConfig?.aggregation]. *)
Definition chartAggregation (widget : Widget.t) : option Aggregation.t :=
  Widget.visualConfig widget ≫= VisualizationConfig.aggregation.

(** The handler of the visualisation type select. *)
Definition onVisualizationTypeChange (selected : Widget.t) (value : WidgetType)
    (prev : DashboardState.t) : DashboardState.t :=
  updateWidget (Widget.id selected) (retype selected value) prev.

(** The handler of the "Change Query" button. *)
Definition onChangeQuery (selected : Widget.t)
    (prev : DashboardState.t) : DashboardState.t :=
  updateWidget (Widget.id selected) unbindQuery prev.

(** ** The route table of the application

    The pages the router can mount and the table of [App.tsx], in the
    order written.  Matching follows the router for a flat table of
    leaf routes: a pattern matches a pathname up to the case of ASCII
    letters and up to trailing slashes, ["*"] matches every pathname, and
    of the matching routes the one that ranks first is mounted, the rank
    being the score of the route's full path and, at equal score, the
    place in the table.  Pathnames are taken without percent escapes. *)

Inductive Element :=
| AuthPage | DocsPage | IndexPage | ProfilePage | JoinBountyPage
| PlaceBountyPage | CreateBountyPage | QueryEditorPage | AnalyticsPage
| BountiesPage | DashboardBuilderPage | DataVisualizationPage | WalletPage
| ContractEventsEDAPage | SettingsPage | SystemStatusPage | NotFoundPage.

(** How a route wraps its page: not at all, or in [ProtectedRoute], with
    the [requireAuth] property when it is written. *)
Inductive Wrapper := Bare | ProtectedRoute (requireAuth : option bool).

Module RouteEntry.
Record t := mk { path : string; wrapper : Wrapper; element : Element }.
End RouteEntry.

















(** ** The authentication context

    The functions of the context talk to the hosted backend through
    awaited requests and act on the page through local effects.  A
    function is embedded as the tree of what it does: it returns, or
    awaits a request and goes on with the outcome, or does a local effect
    and goes on.  An awaited request either resolves with a response or
    rejects; a rejection is what a [catch] receives. *)

Module Auth.

Inductive Role := analyst | bounty_creator | admin.

Definition Role_toString (r : Role) : string :=
  match r with
  | analyst => "analyst"
  | bounty_creator => "bounty_creator"
  | admin => "admin"
  end.

Module Error.
Record t := mk { message : string }.
End Error.

Module UserMetadata.
Record t := mk { full_name : value; role : value }.
End UserMetadata.

Module User.
Record t := mk {
  id : string;
  email : option string;
  user_metadata : option UserMetadata.t
}.
End User.

Module Session.
Record t := mk { user : User.t }.
End Session.

Module Profile.
Record t := mk {
  id : string;
  username : option string;
  full_name : option string;
  avatar_url : option string;
  bio : option string;
  role : Role;
  wallet_address : option string;
  email_verified : bool;
  onboarding_completed : bool;
  total_earnings : number;
  reputation_score : number
}.
End Profile.

(** The optional third argument of [signUp]. *)
Module UserData.
Record t := mk {
  full_name : option string;
  username : option string;
  role : option Role
}.
End UserData.

(** The row the context upserts into the profiles table. *)
Module Row.
Record t := mk {
  id : string;
  username : string;
  full_name : value;
  role : value;
  email_verified : bool;
  onboarding_completed : bool;
  total_earnings : number;
  reputation_score : number
}.
End Row.

(** [{ data: { user, session }, error }] *)
Module AuthResponse.
Record t := mk {
  user : option User.t;
  session : option Session.t;
  error : option Error.t
}.
End AuthResponse.

(** [{ data, error }] of a single-row select. *)
Module SelectResponse.
Record t := mk { data : option Profile.t; error : option Error.t }.
End SelectResponse.

Inductive Outcome (X : Type) :=
| Resolved (x : X)
| Rejected (thrown : Error.t).
Arguments Resolved {X} x.
Arguments Rejected {X} thrown.

(** The requests to the backend. *)
Inductive Request : Type -> Type :=
| auth_signUp (email password emailRedirectTo : string)
    (data : option UserData.t) : Request AuthResponse.t
| auth_signInWithPassword (email password : string) : Request AuthResponse.t
| auth_signOut_global : Request (option Error.t)
| profiles_select_single (id : string) : Request SelectResponse.t
| profiles_upsert (row : Row.t) : Request (option Error.t)
| profiles_update (updates : list (string * value)) (id : string)
    : Request (option Error.t).

(** The local effects: the setters of the provider's hooks, the console,
    an assignment to [window.location.href], and the timer that assigns
    to it after a delay. *)
Inductive Effect :=
| setUser (user : option User.t)
| setSession (session : option Session.t)
| setProfile (profile : option Profile.t)
| setLoading (loading : bool)
| console_error (label : string) (error : Error.t)
| console_warn (label : string) (error : Error.t)
| console_log (text : string)
| location_href (url : string)
| setTimeout_location_href (url : string) (delay : Z)
| setTimeout_fetchProfile (userId : string) (delay : Z).

Inductive Prog (R : Type) : Type :=
| Ret (r : R)
| Await {X : Type} (request : Request X) (k : Outcome X -> Prog R)
| Do (effect : Effect) (k : Prog R).
Arguments Ret {R} r.
Arguments Await {R X} request k.
Arguments Do {R} effect k.

Fixpoint andThen {A B : Type} (p : Prog A) (f : A -> Prog B) : Prog B :=
  match p with
  | Ret a => f a
  | Await request k => Await request (fun o => andThen (k o) f)
  | Do effect k => Do effect (andThen k f)
  end.

(** What a function of the context resolves with: [{ error }], the error
    being [null], a thrown or reported error, or a text. *)
Inductive Failure := thrown (e : Error.t) | text (s : string).

Module Result.
Record t := mk { error : option Failure }.
End Result.

Definition ok : Result.t := Result.mk None.

(** [haystack.includes(needle)] *)
Fixpoint includes (needle haystack : string) : bool :=
  if String.prefix needle haystack then true
  else match haystack with
       | EmptyString => false
       | String _ rest => includes needle rest
       end.

(** [email.split('@')[0]] *)
Fixpoint before_at (email : string) : string :=
  match email with
  | EmptyString => EmptyString
  | String c rest =>
      if (code c =? 64)%N then EmptyString else String c (before_at rest)
  end.

(** Truthiness of a value of type [any]. *)
Definition truthy_value (v : value) : bool :=
  match v with
  | VUndefined | VNull | VBool false | VNumber (Finite 0) | VNumber NaN => false
  | VString s => truthy s
  | _ => true
  end.

(** [v || d] *)
Definition value_or (v d : value) : value :=
  if truthy_value v then v else d.

Definition fetchProfile (userId : string) : Prog unit :=
  Await (profiles_select_single userId) (fun o =>
    match o with
    | Rejected e => Do (console_error "Error fetching profile:" e) (Ret tt)
    | Resolved r =>
        match SelectResponse.error r with
        | Some e => Do (console_error "Error fetching profile:" e) (Ret tt)
        | None => Do (setProfile (SelectResponse.data r)) (Ret tt)
        end
    end).

(** The row [signUp] upserts for the user that signed in. *)
Definition signUpRow (user : User.t) (email : string)
    (userData : option UserData.t) : Row.t :=
  {| Row.id := User.id user;
     Row.username :=
       or_else (default "" (userData ≫= UserData.username)) (before_at email);
     Row.full_name :=
       VString (or_else (default "" (userData ≫= UserData.full_name)) "");
     Row.role :=
       VString (Role_toString (default analyst (userData ≫= UserData.role)));
     Row.email_verified := true;
     Row.onboarding_completed := true;
     Row.total_earnings := Finite 0;
     Row.reputation_score := Finite 0 |}.

(** [origin] is [window.location.origin]. *)
Definition signUp (origin : string) (email password : string)
    (userData : option UserData.t) : Prog Result.t :=
  let caught e :=
    Do (console_error "Sign up error:" e) (Ret (Result.mk (Some (thrown e)))) in
  let signInThenProfile :=
    Await (auth_signInWithPassword email password) (fun o =>
      match o with
      | Rejected e => caught e
      | Resolved signIn =>
          match AuthResponse.error signIn with
          | Some signInError => caught signInError
          | None =>
              match AuthResponse.user signIn with
              | Some user =>
                  Await (profiles_upsert (signUpRow user email userData))
                    (fun o =>
                       match o with
                       | Rejected e => caught e
                       | Resolved profileError =>
                           let redirect :=
                             Do (setTimeout_location_href "/" 100) (Ret ok) in
                           match profileError with
                           | Some e =>
                               Do (console_warn "Profile creation warning:" e)
                                  redirect
                           | None => redirect
                           end
                       end)
              | None => Ret ok
              end
          end
      end) in
  Await (auth_signUp email password (origin +:+ "/") userData) (fun o =>
    match o with
    | Rejected e => caught e
    | Resolved signUp =>
        match AuthResponse.error signUp with
        | Some signUpError =>
            if negb (includes "already registered" (Error.message signUpError))
            then caught signUpError
            else signInThenProfile
        | None => signInThenProfile
        end
    end).

(** The row [signIn] upserts for the user that signed in. *)
Definition signInRow (user : User.t) : Row.t :=
  {| Row.id := User.id user;
     Row.username :=
       or_else (default "" (before_at <$> User.email user)) "user";
     Row.full_name :=
       value_or
         (default VUndefined (UserMetadata.full_name <$> User.user_metadata user))
         (VString "");
     Row.role :=
       value_or
         (default VUndefined (UserMetadata.role <$> User.user_metadata user))
         (VString "analyst");
     Row.email_verified := true;
     Row.onboarding_completed := true;
     Row.total_earnings := Finite 0;
     Row.reputation_score := Finite 0 |}.

(** The user data [signIn] makes up for an account it creates. *)
Definition defaultUserData (email : string) : UserData.t :=
  {| UserData.full_name := Some (before_at email);
     UserData.username := Some (before_at email);
     UserData.role := Some analyst |}.

Definition signIn (origin : string) (email password : string) : Prog Result.t :=
  let caught e :=
    Do (console_error "Sign in failed:" e) (Ret (Result.mk (Some (thrown e)))) in
  Await (auth_signInWithPassword email password) (fun o =>
    match o with
    | Rejected e => caught e
    | Resolved response =>
        match AuthResponse.error response with
        | Some error =>
            if includes "Invalid login credentials" (Error.message error)
            then Do (console_log "User not found, creating account...")
                    (signUp origin email password
                       (Some (defaultUserData email)))
            else caught error
        | None =>
            match AuthResponse.user response with
            | Some user =>
                Await (profiles_upsert (signInRow user)) (fun o =>
                  match o with
                  | Rejected e => caught e
                  | Resolved profileError =>
                      let redirect :=
                        Do (setTimeout_location_href "/" 100) (Ret ok) in
                      match profileError with
                      | Some e =>
                          Do (console_warn "Profile upsert warning:" e) redirect
                      | None => redirect
                      end
                  end)
            | None => Ret ok
            end
        end
    end).

Definition signOut : Prog unit :=
  Await auth_signOut_global (fun o =>
    match o with
    | Rejected e => Do (console_error "Error signing out:" e) (Ret tt)
    | Resolved _ =>
        Do (setUser None)
          (Do (setSession None)
             (Do (setProfile None) (Do (location_href "/auth") (Ret tt))))
    end).

(** [user] is the hook as the render that made the function saw it. *)
Definition updateProfile (user : option User.t)
    (updates : list (string * value)) : Prog Result.t :=
  match user with
  | None => Ret (Result.mk (Some (text "No user found")))
  | Some user =>
      Await (profiles_update updates (User.id user)) (fun o =>
        match o with
        | Rejected e => Ret (Result.mk (Some (thrown e)))
        | Resolved (Some error) => Ret (Result.mk (Some (thrown error)))
        | Resolved None =>
            andThen (fetchProfile (User.id user)) (fun _ => Ret ok)
        end)
  end.

(** The listener of [onAuthStateChange]. *)
Definition onAuthStateChange (session : option Session.t) : Prog unit :=
  Do (setSession session)
    (Do (setUser (Session.user <$> session))
       (match session with
        | Some session =>
            Do (setTimeout_fetchProfile (User.id (Session.user session)) 0)
               (Do (setLoading false) (Ret tt))
        | None => Do (setProfile None) (Do (setLoading false) (Ret tt))
        end)).

(** What is done with the answer of [getSession] on mount. *)
Definition onInitialSession (session : option Session.t) : Prog unit :=
  Do (setSession session)
    (Do (setUser (Session.user <$> session))
       (match session with
        | Some session =>
            Do (setTimeout_fetchProfile (User.id (Session.user session)) 0)
               (Do (setLoading false) (Ret tt))
        | None => Do (setLoading false) (Ret tt)
        end)).

(** A backend: how it answers each request, in a state of its own. *)
Definition Backend (S : Type) : Type :=
  forall X, Request X -> S -> Outcome X * S.

(** One thing a function did: a request it awaited, or a local effect. *)
Inductive Step :=
| requested {X : Type} (request : Request X)
| did (effect : Effect).

(** Runs a function against a backend: its result, the backend's state
    and everything it did, in order. *)
Fixpoint run {S R : Type} (backend : Backend S) (p : Prog R) (s : S)
    : R * S * list Step :=
  match p with
  | Ret r => (r, s, [])
  | Await request k =>
      let (o, s') := backend _ request s in
      let '(r, s'', steps) := run backend (k o) s' in
      (r, s'', requested request :: steps)
  | Do effect k =>
      let '(r, s', steps) := run backend k s in
      (r, s', did effect :: steps)
  end.

(** The hooks of the provider. *)
Module Hooks.
Record t := mk {
  user : option User.t;
  session : option Session.t;
  profile : option Profile.t;
  loading : bool
}.
End Hooks.

Definition initialHooks : Hooks.t := Hooks.mk None None None true.

(** The hooks after the setters among the steps have taken effect. *)
Definition applyStep (h : Hooks.t) (step : Step) : Hooks.t :=
  match step with
  | did (setUser u) =>
      Hooks.mk u (Hooks.session h) (Hooks.profile h) (Hooks.loading h)
  | did (setSession s) =>
      Hooks.mk (Hooks.user h) s (Hooks.profile h) (Hooks.loading h)
  | did (setProfile p) =>
      Hooks.mk (Hooks.user h) (Hooks.session h) p (Hooks.loading h)
  | did (setLoading l) =>
      Hooks.mk (Hooks.user h) (Hooks.session h) (Hooks.profile h) l
  | _ => h
  end.

Definition applySteps (steps : list Step) (h : Hooks.t) : Hooks.t :=
  fold_left applyStep steps h.

(** The requests among the steps. *)
Definition is_request (step : Step) : bool :=
  match step with
  | requested _ => true
  | did _ => false
  end.

End Auth.

(** ** Sample backends *)

Definition sampleUser : Auth.User.t :=
  Auth.User.mk "user-1" (Some "ada@example.org") None.

(** A backend on which every request succeeds, for [sampleUser]. *)
Definition friendlyBackend : Auth.Backend unit :=
  fun X request s =>
    match request in Auth.Request X return Auth.Outcome X * unit with
    | Auth.auth_signUp _ _ _ _ =>
        (Auth.Resolved (Auth.AuthResponse.mk (Some sampleUser) None None), s)
    | Auth.auth_signInWithPassword _ _ =>
        (Auth.Resolved
           (Auth.AuthResponse.mk (Some sampleUser)
              (Some (Auth.Session.mk sampleUser)) None), s)
    | Auth.auth_signOut_global => (Auth.Resolved None, s)
    | Auth.profiles_select_single _ =>
        (Auth.Resolved (Auth.SelectResponse.mk None None), s)
    | Auth.profiles_upsert _ => (Auth.Resolved None, s)
    | Auth.profiles_update _ _ => (Auth.Resolved None, s)
    end.

Definition invalidCredentials : Auth.Error.t :=
  Auth.Error.mk "Invalid login credentials".

Definition alreadyRegistered : Auth.Error.t :=
  Auth.Error.mk "User already registered".

Definition networkDown : Auth.Error.t := Auth.Error.mk "Failed to fetch".

(** A backend that knows the account and is given a wrong password. *)
Definition wrongPasswordBackend : Auth.Backend unit :=
  fun X request s =>
    match request in Auth.Request X return Auth.Outcome X * unit with
    | Auth.auth_signUp _ _ _ _ =>
        (Auth.Resolved (Auth.AuthResponse.mk None None (Some alreadyRegistered)), s)
    | Auth.auth_signInWithPassword _ _ =>
        (Auth.Resolved (Auth.AuthResponse.mk None None (Some invalidCredentials)), s)
    | Auth.auth_signOut_global => (Auth.Resolved None, s)
    | Auth.profiles_select_single _ =>
        (Auth.Resolved (Auth.SelectResponse.mk None None), s)
    | Auth.profiles_upsert _ => (Auth.Resolved None, s)
    | Auth.profiles_update _ _ => (Auth.Resolved None, s)
    end.

(** A backend that cannot be reached: every request rejects. *)
Definition unreachableBackend : Auth.Backend unit :=
  fun X request s => (Auth.Rejected networkDown, s).

(** A string without comma. *)
Fixpoint no_comma (s : string) : bool :=
  match s with
  | EmptyString => true
  | String c r => negb (code c =? 44)%N && no_comma r
  end.

(** * Properties *)

(** ** Adding widgets *)

Lemma built_addWidgets calls s : built s -> built (addWidgets calls s).
Proof.
  revert s. induction calls as [|[now type] calls IH]; intros s Hs; simpl.
  - exact Hs.
  - apply IH. by constructor.
Qed.

Lemma layout_of_addWidget now type prev b :
  layout_of b (DashboardState.layouts (addWidget now type prev)) =
  layout_of b (DashboardState.layouts prev) ++
    [{| LayoutItem.i := "widget-" +:+ pretty now;
        LayoutItem.x := Finite 0;
        LayoutItem.y := Infinity;
        LayoutItem.w := Math_min (Finite 6) (COLS b);
        LayoutItem.h := Finite 4 |}].
Proof. by destruct b. Qed.

Lemma widgets_addWidget now type prev :
  DashboardState.widgets (addWidget now type prev) =
  DashboardState.widgets prev ++ [newWidget now type].
Proof. reflexivity. Qed.

(** The two collections stay in step: in every breakpoint the keys of the
    layout items are the ids of the widgets, in the same order. *)
Lemma layout_keys_sync s b :
  built s ->
  map LayoutItem.i (layout_of b (DashboardState.layouts s)) =
  map Widget.id (DashboardState.widgets s).
Proof.
  induction 1 as [|now type s Hs IH].
  - by destruct b.
  - rewrite layout_of_addWidget, widgets_addWidget, !map_app, IH.
    reflexivity.
Qed.

(** No layout item is wider than its breakpoint has columns. *)
Lemma layout_width_bound s b :
  built s ->
  Forall (fun l => number_le (LayoutItem.w l) (COLS b) = true)
         (layout_of b (DashboardState.layouts s)).
Proof.
  induction 1 as [|now type s Hs IH].
  - destruct b; constructor.
  - rewrite layout_of_addWidget. apply Forall_app. split; [exact IH|].
    constructor; [|constructor]. by destruct b.
Qed.

(** Every widget has a layout item under its id in every breakpoint. *)
Lemma widget_has_layout_item s b w :
  built s -> w ∈ DashboardState.widgets s ->
  items_keyed b (Widget.id w) s <> [].
Proof.
  intros Hs Hw. unfold items_keyed.
  assert (Hin : Widget.id w ∈ map LayoutItem.i
                  (layout_of b (DashboardState.layouts s))).
  { rewrite (layout_keys_sync s b Hs). apply list_elem_of_fmap.
    by exists w. }
  apply list_elem_of_fmap in Hin as (l & Hl & Hin).
  intros Hnil.
  assert (Hf : l ∈ List.filter
                 (fun l => String.eqb (LayoutItem.i l) (Widget.id w))
                 (layout_of b (DashboardState.layouts s))).
  { apply list_elem_of_In, filter_In. split; [by apply list_elem_of_In|].
    rewrite Hl. apply String.eqb_refl. }
  rewrite Hnil in Hf. by apply not_elem_of_nil in Hf.
Qed.

Lemma newWidget_id_inj now now' type type' :
  Widget.id (newWidget now type) = Widget.id (newWidget now' type') ->
  now = now'.
Proof.
  simpl. intros H. apply (inj (String.append "widget-")) in H.
  by apply (inj pretty) in H.
Qed.

Lemma widget_ids_addWidgets calls s :
  map Widget.id (DashboardState.widgets (addWidgets calls s)) =
  map Widget.id (DashboardState.widgets s)
    ++ map (fun c => "widget-" +:+ pretty (fst c)) calls.
Proof.
  revert s. induction calls as [|[now type] calls IH]; intros s; simpl.
  - by rewrite app_nil_r.
  - rewrite IH, widgets_addWidget, map_app. simpl. by rewrite <- app_assoc.
Qed.

(** When no two clicks read the same clock value the ids are pairwise
    distinct. *)
Lemma distinct_clock_distinct_ids calls :
  NoDup (map fst calls) ->
  NoDup (map Widget.id
           (DashboardState.widgets (addWidgets calls initialDashboardState))).
Proof.
  intros Hnd. rewrite widget_ids_addWidgets. simpl.
  induction calls as [|[now type] calls IH]; simpl in *.
  - constructor.
  - apply NoDup_cons in Hnd as [Hnotin Hnd]. apply NoDup_cons. split.
    + intros Hin. apply Hnotin.
      apply list_elem_of_fmap in Hin as ([now' type'] & Heq & Hin).
      simpl in Heq. apply (inj (String.append "widget-")) in Heq.
      apply (inj pretty) in Heq. subst now'.
      apply list_elem_of_fmap. by exists (now, type').
    + by apply IH.
Qed.

(** C1, at two clicks within one millisecond: the state is built by
    [addWidget] calls only, and every widget of it has two layout items
    under its id in each of the five breakpoints, where the invariant
    asks for exactly one. *)
Theorem same_millisecond_doubles_layout_items :
  let s :=
    addWidget 1730505600000 bar
      (addWidget 1730505600000 pie initialDashboardState) in
  built s /\
  forall b w, w ∈ DashboardState.widgets s ->
    length (items_keyed b (Widget.id w) s) = 2.
Proof.
  split.
  - repeat constructor.
  - intros b w Hw. simpl in Hw.
    apply elem_of_cons in Hw as [->|Hw];
      [|apply elem_of_cons in Hw as [->|Hw];
        [|by apply not_elem_of_nil in Hw]];
      by destruct b.
Qed.

(** C3, at two clicks within one millisecond: the id the second call
    gives its widget is the id of the widget already on the dashboard,
    and the widget list ends up with a repeated id. *)
Theorem same_millisecond_repeats_id :
  let prev := addWidget 1730505600000 pie initialDashboardState in
  Widget.id (newWidget 1730505600000 bar)
    ∈ map Widget.id (DashboardState.widgets prev)
  /\ ~ NoDup (map Widget.id
               (DashboardState.widgets (addWidget 1730505600000 bar prev))).
Proof.
  split.
  - simpl. apply list_elem_of_here.
  - simpl. intros Hnd. apply NoDup_cons in Hnd as [Hnotin _].
    apply Hnotin, list_elem_of_here.
Qed.

(** C4: [addWidget] is total; the widget it appends has the type asked
    for, size 6 by 4 and position (0, Infinity), and each breakpoint's
    array gains one item keyed by the widget's id, of width
    min(6, columns of the breakpoint) and height 4. *)
Theorem addWidget_appends_default_widget (now : Z) (type : WidgetType)
    (prev : DashboardState.t) :
  exists widget,
    DashboardState.widgets (addWidget now type prev) =
      DashboardState.widgets prev ++ [widget]
    /\ Widget.type widget = type
    /\ Widget.w widget = Finite 6 /\ Widget.h widget = Finite 4
    /\ Widget.x widget = Finite 0 /\ Widget.y widget = Infinity
    /\ forall b, exists item,
         layout_of b (DashboardState.layouts (addWidget now type prev)) =
           layout_of b (DashboardState.layouts prev) ++ [item]
         /\ LayoutItem.i item = Widget.id widget
         /\ LayoutItem.w item = Math_min (Finite 6) (COLS b)
         /\ LayoutItem.h item = Finite 4
         /\ LayoutItem.x item = Finite 0 /\ LayoutItem.y item = Infinity.
Proof.
  exists (newWidget now type). repeat split.
  intros b. eexists. split; [apply layout_of_addWidget|]. by repeat split.
Qed.

(** ** Updating a widget *)

Lemma merge_fields w updates f :
  if supplied updates f then field_from f updates (merge w updates)
  else same_field f (merge w updates) w.
Proof. destruct updates as [[] [] [] [] [] [] [] [] [] []], f; reflexivity. Qed.

Lemma updateWidget_lookup id updates prev n w :
  DashboardState.widgets prev !! n = Some w ->
  DashboardState.widgets (updateWidget id updates prev) !! n =
    Some (if String.eqb (Widget.id w) id then merge w updates else w).
Proof.
  intros Hn. simpl.
  change (map ?f ?l) with (f <$> l). by rewrite list_lookup_fmap, Hn.
Qed.

Lemma updateWidget_no_match id updates prev :
  (forall w, w ∈ DashboardState.widgets prev -> Widget.id w <> id) ->
  updateWidget id updates prev = prev.
Proof.
  intros Hno. destruct prev as [layouts widgets]. unfold updateWidget.
  simpl in *. f_equal.
  induction widgets as [|w widgets IH]; simpl; [done|].
  rewrite IH by (intros w' Hw'; apply Hno; by right).
  destruct (String.eqb_spec (Widget.id w) id) as [Heq|_]; [|done].
  exfalso. apply (Hno w); [by left|done].
Qed.

(** C5: [updateWidget] leaves the layouts and the number of widgets as
    they are; the widget at each position is left as it is when its id
    differs from [id] and is merged with the update when it matches; a
    merged widget takes the fields the update supplies and keeps all the
    others, so that [{title: X}] changes the title only; and when no
    widget has the id the state comes back unchanged. *)
Theorem updateWidget_partial_merge (id : string) (updates : PartialWidget.t)
    (prev : DashboardState.t) :
  let next := updateWidget id updates prev in
  DashboardState.layouts next = DashboardState.layouts prev
  /\ length (DashboardState.widgets next) = length (DashboardState.widgets prev)
  /\ (forall n w, DashboardState.widgets prev !! n = Some w ->
        DashboardState.widgets next !! n =
          Some (if String.eqb (Widget.id w) id then merge w updates else w))
  /\ (forall w f,
        if supplied updates f then field_from f updates (merge w updates)
        else same_field f (merge w updates) w)
  /\ (forall w title,
        merge w (titleOnly title) =
          Widget.mk (Widget.id w) (Widget.type w) title (Widget.savedQuery w)
            (Widget.visualConfig w) (Widget.x w) (Widget.y w) (Widget.w w)
            (Widget.h w) (Widget.data w))
  /\ ((forall w, w ∈ DashboardState.widgets prev -> Widget.id w <> id) ->
        next = prev).
Proof.
  repeat split.
  - simpl. apply length_map.
  - intros n w. apply updateWidget_lookup.
  - intros w f. apply merge_fields.
  - apply updateWidget_no_match.
Qed.

Lemma updateWidget_partial_merge_witness :
  updateWidget "widget-7" (titleOnly "Fees")
    (addWidget 1000 bar initialDashboardState) =
  addWidget 1000 bar initialDashboardState.
Proof.
  apply (updateWidget_partial_merge "widget-7" (titleOnly "Fees")
           (addWidget 1000 bar initialDashboardState)).
  intros w Hw. simpl in Hw. apply list_elem_of_singleton in Hw. subst w.
  vm_compute. discriminate.
Defined.

(** ** Saving and loading *)

Lemma truthy_empty s : truthy s = false <-> s = "".
Proof. destruct s; simpl; split; congruence. Qed.

Lemma truthy_dashboardId_or_new dashboardId now :
  truthy (dashboardId_or_new dashboardId now) = true.
Proof.
  destruct dashboardId as [id|]; simpl; [|done].
  unfold or_else. destruct (truthy id) eqn:Hid; [exact Hid|done].
Qed.

(** What a save with a name does to the world. *)
Lemma exec_saveDashboard dashboardId now createdAt updatedAt w :
  truthy (Page.dashboardName (World.page w)) = true ->
  let record := dashboardConfig dashboardId now createdAt updatedAt (World.page w) in
  exec (saveDashboard dashboardId now createdAt updatedAt) w =
  World.mk (World.page w)
    (<[Dashboard.id record := record]> (World.store w))
    (World.log w ++ [service_saveDashboard record]
       ++ (if no_id dashboardId
           then [navigated ("/dashboard/" +:+ Dashboard.id record)] else [])
       ++ [toasted savedToast]).
Proof.
  intros Hname. unfold exec, saveDashboard, bind, getPage. simpl.
  rewrite Hname. simpl.
  destruct (no_id dashboardId); simpl; by rewrite <- !app_assoc.
Qed.

(** What a load does when the service has the record. *)
Lemma exec_loadDashboardEffect_found id d w :
  truthy id = true -> World.store w !! id = Some d ->
  exec (loadDashboardEffect (Some id)) w =
  World.mk
    (Page.mk (Dashboard.name d)
       (if truthy (Dashboard.description d) then Dashboard.description d
        else Page.dashboardDescription (World.page w))
       {| DashboardState.layouts := Dashboard.layout d;
          DashboardState.widgets := map restoreWidget (Dashboard.widgets d) |}
       (Page.showQueryDialog (World.page w))
       (Page.selectedWidgetId (World.page w))
       (Page.showDashboardsDialog (World.page w)))
    (World.store w)
    (World.log w ++ [service_getDashboardById id; toasted loadedToast]).
Proof.
  intros Hid Hd. unfold exec, loadDashboardEffect. rewrite Hid.
  unfold bind, DashboardService_getDashboardById. rewrite Hd. simpl.
  destruct (truthy (Dashboard.description d)); simpl;
    by rewrite <- !app_assoc.
Qed.

(** The page a round trip ends on. *)
Lemma save_then_load_page dashboardId now createdAt updatedAt w mounted :
  truthy (Page.dashboardName (World.page w)) = true ->
  World.page (save_then_load dashboardId now createdAt updatedAt w mounted) =
  Page.mk (Page.dashboardName (World.page w))
    (if truthy (Page.dashboardDescription (World.page w))
     then Page.dashboardDescription (World.page w)
     else Page.dashboardDescription mounted)
    {| DashboardState.layouts :=
         DashboardState.layouts (Page.dashboardState (World.page w));
       DashboardState.widgets :=
         map restoreWidget
           (map persistWidget
              (DashboardState.widgets (Page.dashboardState (World.page w)))) |}
    (Page.showQueryDialog mounted) (Page.selectedWidgetId mounted)
    (Page.showDashboardsDialog mounted).
Proof.
  intros Hname. unfold save_then_load.
  rewrite (exec_saveDashboard _ _ _ _ _ Hname).
  rewrite (exec_loadDashboardEffect_found _
             (dashboardConfig dashboardId now createdAt updatedAt (World.page w))).
  - reflexivity.
  - apply truthy_dashboardId_or_new.
  - apply lookup_insert_eq.
Qed.

(** C6: with an empty name [saveDashboard] raises the validation
    notification and does nothing else: the page's hooks and the store
    are as before, and the notification is the only entry the log gains,
    so the service is not called and no route change is asked for. *)
Theorem saveDashboard_empty_name (dashboardId : option string) (now : Z)
    (createdAt updatedAt : string) (w : World.t) :
  Page.dashboardName (World.page w) = "" ->
  exec (saveDashboard dashboardId now createdAt updatedAt) w =
  World.mk (World.page w) (World.store w)
    (World.log w ++ [toasted nameRequired]).
Proof.
  intros Hname. unfold exec, saveDashboard, bind, getPage. simpl.
  by rewrite Hname.
Qed.

Lemma saveDashboard_empty_name_witness :
  exec (saveDashboard None 1000 "2024-01-01T00:00:00.000Z"
          "2024-01-01T00:00:00.000Z")
       (World.mk initialPage ∅ []) =
  World.mk initialPage ∅ [toasted nameRequired].
Proof.
  apply (saveDashboard_empty_name None 1000 "2024-01-01T00:00:00.000Z"
           "2024-01-01T00:00:00.000Z" (World.mk initialPage ∅ [])).
  reflexivity.
Defined.

(** C7: when the service has no dashboard under the route's id, the load
    effect asks the service once, raises the not-found notification and
    asks for the dashboard list route; the page's hooks (name,
    description, dashboard state) and the store are as before. *)
Theorem load_missing_dashboard (id : string) (w : World.t) :
  truthy id = true ->
  World.store w !! id = None ->
  exec (loadDashboardEffect (Some id)) w =
  World.mk (World.page w) (World.store w)
    (World.log w ++ [service_getDashboardById id; toasted notFound;
                     navigated "/dashboard"]).
Proof.
  intros Hid Hd. unfold exec, loadDashboardEffect. rewrite Hid.
  unfold bind, DashboardService_getDashboardById. rewrite Hd. simpl.
  by rewrite <- !app_assoc.
Qed.

Lemma load_missing_dashboard_witness :
  exec (loadDashboardEffect (Some "dashboard-42"))
       (World.mk initialPage ∅ []) =
  World.mk initialPage ∅
    [service_getDashboardById "dashboard-42"; toasted notFound;
     navigated "/dashboard"].
Proof.
  apply (load_missing_dashboard "dashboard-42" (World.mk initialPage ∅ [])).
  - reflexivity.
  - apply lookup_empty.
Defined.

(** C10: loading a dashboard stored with an empty description leaves the
    description on the page as it was, while the name, the layouts and
    the widgets are replaced by the stored ones. *)
Theorem load_keeps_description_when_stored_empty (id : string)
    (d : Dashboard.t) (w : World.t) :
  truthy id = true ->
  World.store w !! id = Some d ->
  Dashboard.description d = "" ->
  let after := World.page (exec (loadDashboardEffect (Some id)) w) in
  Page.dashboardDescription after = Page.dashboardDescription (World.page w)
  /\ Page.dashboardName after = Dashboard.name d
  /\ DashboardState.layouts (Page.dashboardState after) = Dashboard.layout d
  /\ DashboardState.widgets (Page.dashboardState after) =
       map restoreWidget (Dashboard.widgets d).
Proof.
  intros Hid Hd Hdesc after. subst after.
  rewrite (exec_loadDashboardEffect_found id d w Hid Hd). simpl.
  by rewrite Hdesc.
Qed.

Lemma load_keeps_description_when_stored_empty_witness :
  let w := World.mk otherPage {["dashboard-7" := storedDashboard]} [] in
  let after :=
    World.page (exec (loadDashboardEffect (Some "dashboard-7")) w) in
  Page.dashboardDescription after = "Bridge inflows"
  /\ Page.dashboardName after = "Fees"
  /\ DashboardState.layouts (Page.dashboardState after) =
       Dashboard.layout storedDashboard
  /\ DashboardState.widgets (Page.dashboardState after) =
       map restoreWidget (Dashboard.widgets storedDashboard).
Proof.
  apply (load_keeps_description_when_stored_empty "dashboard-7"
           storedDashboard
           (World.mk otherPage {["dashboard-7" := storedDashboard]} [])).
  - reflexivity.
  - apply lookup_singleton_eq.
  - reflexivity.
Defined.

(** ** The round trip through the service *)

Lemma restore_persist_survives widget :
  widget_survives widget (restoreWidget (persistWidget widget)).
Proof. by repeat split. Qed.

Lemma restore_persist_query widget q :
  Widget.savedQuery widget = Some q ->
  if truthy (SavedQuery.query_text q)
  then synthetic_query widget q (restoreWidget (persistWidget widget))
  else Widget.savedQuery (restoreWidget (persistWidget widget)) = None.
Proof.
  intros Hq. unfold synthetic_query. simpl. rewrite Hq. simpl.
  destruct (truthy (SavedQuery.query_text q)); [|done].
  eexists. by repeat split.
Qed.

(** The claim of C2 fails as worded, twice.  A widget bound to a query
    whose text is empty is loaded without any query; and a dashboard
    saved with an empty description, loaded while the page shows another
    description, leaves that other description in place. *)
Lemma round_trip_counterexample :
  (truthy (Page.dashboardName (samplePage "Fee revenue" "")) = true
   /\ ~ round_trip_as_specified (samplePage "Fee revenue" "")
          (World.page
             (save_then_load None 1000 "2024-01-01T00:00:00.000Z"
                "2024-01-01T00:00:00.000Z"
                (sampleWorld "Fee revenue" "") initialPage)))
  /\
  (truthy (Page.dashboardName (samplePage "" "select 1")) = true
   /\ ~ round_trip_as_specified (samplePage "" "select 1")
          (World.page
             (save_then_load None 1000 "2024-01-01T00:00:00.000Z"
                "2024-01-01T00:00:00.000Z"
                (sampleWorld "" "select 1") otherPage))).
Proof.
  split; (split; [reflexivity|]);
    rewrite save_then_load_page by reflexivity;
    intros (_ & Hdescription & _ & Hwidgets).
  - simpl in Hwidgets. apply Forall2_cons_1 in Hwidgets as [[_ Hquery] _].
    destruct (Hquery _ eq_refl) as (q' & Hq' & _). discriminate Hq'.
  - discriminate Hdescription.
Qed.

(** C2, amended: after a save under a name and a load by the id saved
    under, the name and the layouts are those saved; the description is
    the saved one when that is not empty, and otherwise the one the page
    had when the load ran; every widget keeps title, type and
    visualisation; and a widget that was bound to a query comes back with
    the synthetic reference (id "query-" + widget id, the same text, an
    empty description) when the query's text is not empty, and with no
    query when it is. *)
Theorem save_load_round_trip (dashboardId : option string) (now : Z)
    (createdAt updatedAt : string) (w : World.t) (mounted : Page.t) :
  truthy (Page.dashboardName (World.page w)) = true ->
  let before := World.page w in
  let after :=
    World.page (save_then_load dashboardId now createdAt updatedAt w mounted) in
  Page.dashboardName after = Page.dashboardName before
  /\ Page.dashboardDescription after =
       (if truthy (Page.dashboardDescription before)
        then Page.dashboardDescription before
        else Page.dashboardDescription mounted)
  /\ DashboardState.layouts (Page.dashboardState after) =
     DashboardState.layouts (Page.dashboardState before)
  /\ Forall2
       (fun widget loaded =>
          widget_survives widget loaded
          /\ forall q, Widget.savedQuery widget = Some q ->
               if truthy (SavedQuery.query_text q)
               then synthetic_query widget q loaded
               else Widget.savedQuery loaded = None)
       (DashboardState.widgets (Page.dashboardState before))
       (DashboardState.widgets (Page.dashboardState after)).
Proof.
  intros Hname before after. subst before after.
  rewrite (save_then_load_page _ _ _ _ _ _ Hname). simpl.
  repeat split.
  induction (DashboardState.widgets (Page.dashboardState (World.page w)))
    as [|widget widgets IH]; simpl; constructor; [|exact IH].
  split; [apply restore_persist_survives|].
  intros q. apply restore_persist_query.
Qed.

Lemma save_load_round_trip_witness :
  let before := samplePage "Fee revenue" "select 1" in
  let after :=
    World.page
      (save_then_load None 1000 "2024-01-01T00:00:00.000Z"
         "2024-01-01T00:00:00.000Z"
         (sampleWorld "Fee revenue" "select 1") initialPage) in
  Page.dashboardName after = "Fees"
  /\ Page.dashboardDescription after = "Fee revenue"
  /\ DashboardState.layouts (Page.dashboardState after) =
     DashboardState.layouts (Page.dashboardState before)
  /\ Forall2
       (fun widget loaded =>
          widget_survives widget loaded
          /\ forall q, Widget.savedQuery widget = Some q ->
               if truthy (SavedQuery.query_text q)
               then synthetic_query widget q loaded
               else Widget.savedQuery loaded = None)
       (DashboardState.widgets (Page.dashboardState before))
       (DashboardState.widgets (Page.dashboardState after)).
Proof.
  apply (save_load_round_trip None 1000 "2024-01-01T00:00:00.000Z"
           "2024-01-01T00:00:00.000Z"
           (sampleWorld "Fee revenue" "select 1") initialPage).
  reflexivity.
Defined.

(** ** Export *)

(** Membership in a list that is written out. *)
Ltac find_elem :=
  repeat first [apply list_elem_of_here | apply list_elem_of_further].

Lemma toJSON_number n : exists j, toJSON (VNumber n) = Some j.
Proof. destruct n; by eexists. Qed.

Lemma keys_toJSON_props (props : list (string * value)) k v j :
  (k, v) ∈ props -> toJSON v = Some j ->
  k ∈ Object_keys (omap (fun kv => pair (fst kv) <$> toJSON (snd kv)) props).
Proof.
  intros Hin Hj. apply list_elem_of_fmap. exists (k, j). split; [done|].
  apply list_elem_of_omap. exists (k, v). split; [done|].
  simpl. by rewrite Hj.
Qed.

(** An exported widget is the whole object: it is written under the
    widget's id and has the grid fields, which the persisted form drops. *)
Lemma toJSON_Widget_value w :
  exists props,
    toJSON (Widget_value w) = Some (JObject props)
    /\ Get props "id" = Some (JString (Widget.id w))
    /\ forall k, k ∈ ["x"; "y"; "w"; "h"] -> k ∈ Object_keys props.
Proof.
  eexists. split; [reflexivity|]. split; [reflexivity|].
  intros k Hk.
  assert (Hn : exists n, (k, VNumber n) ∈
            [("id", VString (Widget.id w));
             ("type", VString (WidgetType_toString (Widget.type w)));
             ("title", VString (Widget.title w));
             ("savedQuery", optional SavedQuery_value (Widget.savedQuery w));
             ("visualConfig",
              optional VisualizationConfig_value (Widget.visualConfig w));
             ("x", VNumber (Widget.x w));
             ("y", VNumber (Widget.y w));
             ("w", VNumber (Widget.w w));
             ("h", VNumber (Widget.h w));
             ("data", optional (fun d => d) (Widget.data w))]).
  { apply elem_of_cons in Hk as [->|Hk]; [exists (Widget.x w); find_elem|].
    apply elem_of_cons in Hk as [->|Hk]; [exists (Widget.y w); find_elem|].
    apply elem_of_cons in Hk as [->|Hk]; [exists (Widget.w w); find_elem|].
    apply elem_of_cons in Hk as [->|Hk]; [exists (Widget.h w); find_elem|].
    by apply not_elem_of_nil in Hk. }
  destruct Hn as (n & Hn). destruct (toJSON_number n) as (j & Hj).
  exact (keys_toJSON_props _ k (VNumber n) j Hn Hj).
Qed.

Lemma toJSON_VObject_keys props j k :
  toJSON (VObject props) = Some j -> k ∈ json_keys j -> k ∈ Object_keys props.
Proof.
  simpl. intros [= <-] Hin. simpl in Hin.
  apply list_elem_of_fmap in Hin as ([k' j'] & -> & Hin).
  apply list_elem_of_omap in Hin as ([k'' v] & Hin & Hkv).
  simpl in Hkv. destruct (toJSON v); [|done]. injection Hkv as -> _.
  apply list_elem_of_fmap. by exists (k', v).
Qed.

(** The persisted form of a widget has none of the grid fields. *)
Lemma persisted_form_has_no_grid_fields widget j k :
  toJSON (PersistedWidget_value (persistWidget widget)) = Some j ->
  k ∈ ["x"; "y"; "w"; "h"] -> k ∉ json_keys j.
Proof.
  intros Hj Hk Hin.
  apply (toJSON_VObject_keys _ _ _ Hj) in Hin. simpl in Hin.
  repeat (apply elem_of_cons in Hk as [->|Hk];
          [repeat (apply elem_of_cons in Hin as [Hin|Hin]; [discriminate|]);
           by apply not_elem_of_nil in Hin|]).
  by apply not_elem_of_nil in Hk.
Qed.

(** C8: [exportDashboard] issues one download and the success
    notification.  The text downloaded is written with an indentation of
    2 and parses to an object whose keys are name, description, layouts,
    widgets and rpc_endpoint, in this order; its widgets array has one
    entry per in-memory widget, in order, each the serialisation of the
    whole widget object (with its grid fields) under the widget's id, so
    lengths and ids agree; the file is named after the dashboard, or
    "dashboard" when the name is empty, then an underscore, the clock
    reading and ".json". *)
Theorem exportDashboard_document (VITE_STARKNET_RPC_URL : option string)
    (now : Z) (w : World.t) :
  let p := World.page w in
  let widgets := DashboardState.widgets (Page.dashboardState p) in
  exists dataStr props exported,
    exec (exportDashboard VITE_STARKNET_RPC_URL now) w =
      World.mk (World.page w) (World.store w)
        (World.log w ++
           [downloaded dataStr
              (or_else (Page.dashboardName p) "dashboard" +:+ "_"
                 +:+ pretty now +:+ ".json");
            toasted exportedToast])
    /\ space dataStr = 2
    /\ JSON_parse dataStr = Some (JObject props)
    /\ Object_keys props =
         ["name"; "description"; "layouts"; "widgets"; "rpc_endpoint"]
    /\ Get props "name" = Some (JString (Page.dashboardName p))
    /\ Get props "description" = Some (JString (Page.dashboardDescription p))
    /\ Get props "layouts" =
         toJSON (Layout_value (DashboardState.layouts (Page.dashboardState p)))
    /\ Get props "rpc_endpoint" =
         Some (JString (RPC_ENDPOINT VITE_STARKNET_RPC_URL))
    /\ Get props "widgets" = Some (JArray exported)
    /\ length exported = length widgets
    /\ map json_id exported =
         map (fun widget => Some (JString (Widget.id widget))) widgets
    /\ Forall2
         (fun widget j =>
            toJSON (Widget_value widget) = Some j
            /\ forall k, k ∈ ["x"; "y"; "w"; "h"] -> k ∈ json_keys j)
         widgets exported.
Proof.
  intros p widgets. subst p widgets.
  set (widgets := DashboardState.widgets (Page.dashboardState (World.page w))).
  eexists _, _,
    (map (fun e => default JNull (toJSON e)) (map Widget_value widgets)).
  split.
  { unfold exec, exportDashboard, bind, getPage, toast, emit. simpl.
    rewrite <- app_assoc. reflexivity. }
  split; [reflexivity|]. split; [reflexivity|].
  do 6 (split; [reflexivity|]).
  split; [by rewrite !length_map|].
  split.
  - rewrite !map_map. apply map_ext. intros widget.
    destruct (toJSON_Widget_value widget) as (props & -> & Hid & _).
    exact Hid.
  - induction widgets as [|widget widgets IH]; cbn [map]; constructor;
      [|exact IH].
    destruct (toJSON_Widget_value widget) as (props & Hprops & _ & Hkeys).
    rewrite Hprops. by split.
Qed.

(** ** Axis candidates *)

Lemma Get_of_key {A : Type} (row : list (string * A)) key :
  key ∈ Object_keys row -> exists v, Get row key = Some v.
Proof.
  induction row as [|[k v] row IH]; simpl; intros Hin.
  - by apply not_elem_of_nil in Hin.
  - destruct (String.eqb_spec k key) as [_|Hne]; [by eexists|].
    apply elem_of_cons in Hin as [Heq|Hin]; [congruence|by apply IH].
Qed.

Lemma filter_sublist {A : Type} (f : A -> bool) (l : list A) :
  sublist (List.filter f l) l.
Proof.
  induction l as [|a l IH]; simpl; [constructor|].
  destruct (f a); by constructor.
Qed.

(** C9: when the bound query's first result set has a first row, the
    Y-axis candidates are the keys of that row, in the row's order, whose
    cell is a number or converts to a number other than NaN; for the row
    {a: "x", b: 5, c: "3"} they are b and c. *)
Theorem yAxisOptions_numeric_keys (q : SavedQuery.t)
    (row : list (string * value)) (rows : list (list (string * value))) :
  firstResults q = Some (row :: rows) ->
  (forall key,
     key ∈ yAxisOptions q <->
     key ∈ Object_keys row
     /\ exists value, Get row key = Some value
          /\ (typeof_number value = true \/ isNaN_Number value = false))
  /\ sublist (yAxisOptions q) (Object_keys row)
  /\ (row = [("a", VString "x"); ("b", VNumber (Finite 5)); ("c", VString "3")] ->
      yAxisOptions q = ["b"; "c"]).
Proof.
  intros Hfirst. unfold yAxisOptions. rewrite Hfirst.
  change (firstRow (row :: rows)) with row.
  split; [|split].
  - intros key. rewrite list_elem_of_In, filter_In, <- list_elem_of_In.
    split.
    + intros [Hkey Hnum]. split; [exact Hkey|].
      destruct (Get_of_key row key Hkey) as (v & Hv).
      exists v. split; [exact Hv|]. rewrite Hv in Hnum. simpl in Hnum.
      apply orb_true_iff in Hnum as [Hnum|Hnum]; [by left|right].
      by apply negb_true_iff.
    + intros (Hkey & v & Hv & Hnum). split; [exact Hkey|].
      rewrite Hv. simpl. apply orb_true_iff.
      destruct Hnum as [Hnum|Hnum]; [by left|right].
      by apply negb_true_iff.
  - apply filter_sublist.
  - intros ->. reflexivity.
Qed.

Lemma yAxisOptions_numeric_keys_witness :
  yAxisOptions
    (SavedQuery.mk "q-17" "Daily volume" None "select a, b, c from t"
       (Some [ResultSet.mk
                (Some [[("a", VString "x"); ("b", VNumber (Finite 5));
                        ("c", VString "3")]])])) = ["b"; "c"].
Proof.
  apply (yAxisOptions_numeric_keys
           (SavedQuery.mk "q-17" "Daily volume" None "select a, b, c from t"
              (Some [ResultSet.mk
                       (Some [[("a", VString "x"); ("b", VNumber (Finite 5));
                               ("c", VString "3")]])]))
           [("a", VString "x"); ("b", VNumber (Finite 5)); ("c", VString "3")]
           []).
  - reflexivity.
  - reflexivity.
Defined.

(** * Further properties of the page *)

(** ** Runs of the palette *)

Lemma layout_items_default s b :
  built s ->
  Forall (fun l => LayoutItem.w l = Math_min (Finite 6) (COLS b)
                   /\ LayoutItem.h l = Finite 4
                   /\ LayoutItem.x l = Finite 0
                   /\ LayoutItem.y l = Infinity)
         (layout_of b (DashboardState.layouts s)).
Proof.
  induction 1 as [|now type s Hs IH].
  - destruct b; constructor.
  - rewrite layout_of_addWidget. apply Forall_app. split; [exact IH|].
    by repeat constructor.
Qed.

(** X1: in every state the palette builds from the empty dashboard, each
    breakpoint's array lists the widgets' ids in the widgets' order, so
    it has one item per widget, and every item has the width
    min(6, columns of the breakpoint), height 4, x 0 and y Infinity. *)
Theorem built_layouts_mirror_widgets (s : DashboardState.t) (b : BreakPoint) :
  built s ->
  map LayoutItem.i (layout_of b (DashboardState.layouts s)) =
    map Widget.id (DashboardState.widgets s)
  /\ length (layout_of b (DashboardState.layouts s)) =
       length (DashboardState.widgets s)
  /\ Forall (fun l => LayoutItem.w l = Math_min (Finite 6) (COLS b)
                      /\ LayoutItem.h l = Finite 4
                      /\ LayoutItem.x l = Finite 0
                      /\ LayoutItem.y l = Infinity)
            (layout_of b (DashboardState.layouts s)).
Proof.
  intros Hs. split; [by apply layout_keys_sync|]. split.
  - rewrite <- (length_map LayoutItem.i), (layout_keys_sync s b Hs).
    apply length_map.
  - by apply layout_items_default.
Qed.

Lemma built_layouts_mirror_widgets_witness :
  let s :=
    addWidgets [(1730505600000%Z, bar); (1730505600250%Z, table)]
      initialDashboardState in
  map LayoutItem.i (layout_of xs (DashboardState.layouts s)) =
    map Widget.id (DashboardState.widgets s)
  /\ length (layout_of xs (DashboardState.layouts s)) =
       length (DashboardState.widgets s)
  /\ Forall (fun l => LayoutItem.w l = Math_min (Finite 6) (COLS xs)
                      /\ LayoutItem.h l = Finite 4
                      /\ LayoutItem.x l = Finite 0
                      /\ LayoutItem.y l = Infinity)
            (layout_of xs (DashboardState.layouts s)).
Proof.
  apply (built_layouts_mirror_widgets
           (addWidgets [(1730505600000%Z, bar); (1730505600250%Z, table)]
              initialDashboardState) xs).
  apply built_addWidgets. constructor.
Defined.

Lemma keyed_none (items : list LayoutItem.t) key :
  key ∉ map LayoutItem.i items ->
  List.filter (fun l => String.eqb (LayoutItem.i l) key) items = [].
Proof.
  induction items as [|l items IH]; simpl; intros Hnotin; [done|].
  apply not_elem_of_cons in Hnotin as [Hne Hnotin].
  destruct (String.eqb_spec (LayoutItem.i l) key) as [Heq|_];
    [congruence|by apply IH].
Qed.

Lemma keyed_once (items : list LayoutItem.t) key :
  NoDup (map LayoutItem.i items) ->
  key ∈ map LayoutItem.i items ->
  length (List.filter (fun l => String.eqb (LayoutItem.i l) key) items) = 1.
Proof.
  induction items as [|l items IH]; simpl; intros Hnd Hin.
  - by apply not_elem_of_nil in Hin.
  - apply NoDup_cons in Hnd as [Hnotin Hnd].
    destruct (String.eqb_spec (LayoutItem.i l) key) as [Heq|Hne].
    + subst key. by rewrite (keyed_none items _ Hnotin).
    + apply elem_of_cons in Hin as [Heq|Hin]; [congruence|by apply IH].
Qed.

(** X2: when no two clicks on the palette read the same clock value, the
    widgets' ids are pairwise distinct and every widget has exactly one
    layout item under its id in each breakpoint. *)
Theorem distinct_clock_one_item_each (calls : list (Z * WidgetType)) :
  NoDup (map fst calls) ->
  let s := addWidgets calls initialDashboardState in
  NoDup (map Widget.id (DashboardState.widgets s))
  /\ forall b w, w ∈ DashboardState.widgets s ->
       length (items_keyed b (Widget.id w) s) = 1.
Proof.
  intros Hclock s.
  assert (Hids : NoDup (map Widget.id (DashboardState.widgets s)))
    by by apply distinct_clock_distinct_ids.
  assert (Hs : built s) by (apply built_addWidgets; constructor).
  split; [exact Hids|]. intros b w Hw. apply keyed_once.
  - by rewrite (layout_keys_sync s b Hs).
  - rewrite (layout_keys_sync s b Hs). apply list_elem_of_fmap. by exists w.
Qed.

Lemma distinct_clock_one_item_each_witness :
  let s :=
    addWidgets [(1730505600000%Z, bar); (1730505600250%Z, table)]
      initialDashboardState in
  NoDup (map Widget.id (DashboardState.widgets s))
  /\ forall b w, w ∈ DashboardState.widgets s ->
       length (items_keyed b (Widget.id w) s) = 1.
Proof.
  apply (distinct_clock_one_item_each
           [(1730505600000%Z, bar); (1730505600250%Z, table)]).
  simpl. apply NoDup_cons. split.
  - intros Hin. apply list_elem_of_singleton in Hin. discriminate Hin.
  - apply NoDup_singleton.
Defined.

(** ** Layout changes and widget updates together *)

Lemma widget_ids_updateWidget id updates s :
  PartialWidget.id updates = None ->
  map Widget.id (DashboardState.widgets (updateWidget id updates s)) =
  map Widget.id (DashboardState.widgets s).
Proof.
  intros Hid. simpl. rewrite map_map. apply map_ext. intros w.
  destruct (String.eqb (Widget.id w) id); [|done]. simpl. by rewrite Hid.
Qed.

(** X3: the correspondence between layout keys and widget ids is kept by
    [addWidget] and by every [updateWidget] that does not supply an id;
    [onLayoutChange] checks nothing, so after it the correspondence holds
    exactly when the layouts handed in list the widgets' ids. *)
Theorem in_step_preserved (s : DashboardState.t) :
  in_step s ->
  (forall now type, in_step (addWidget now type s))
  /\ (forall id updates,
        PartialWidget.id updates = None -> in_step (updateWidget id updates s))
  /\ (forall layouts,
        in_step (onLayoutChange layouts s) <->
        forall b, map LayoutItem.i (layout_of b layouts) =
                  map Widget.id (DashboardState.widgets s)).
Proof.
  intros Hs. split; [|split].
  - intros now type b.
    by rewrite layout_of_addWidget, widgets_addWidget, !map_app, (Hs b).
  - intros id updates Hid b. rewrite (widget_ids_updateWidget _ _ _ Hid).
    apply Hs.
  - intros layouts. reflexivity.
Qed.

Lemma in_step_preserved_witness :
  in_step (addWidget 1730505600000 pie (sampleState "select 1")).
Proof.
  apply (in_step_preserved (sampleState "select 1")).
  intros b. by destruct b.
Defined.

(** X4: of two layout changes only the last one counts, a layout change
    that hands back the current layouts changes nothing, and a layout
    change and a widget update can be applied in either order. *)
Theorem onLayoutChange_composes (l1 l2 : Layout.t) (id : string)
    (updates : PartialWidget.t) (s : DashboardState.t) :
  onLayoutChange l2 (onLayoutChange l1 s) = onLayoutChange l2 s
  /\ onLayoutChange (DashboardState.layouts s) s = s
  /\ onLayoutChange l1 (updateWidget id updates s) =
       updateWidget id updates (onLayoutChange l1 s).
Proof. by destruct s. Qed.

Lemma default_later {A : Type} (a : A) (o1 o2 : option A) :
  default (default a o1) o2 = default a (later o1 o2).
Proof. by destruct o1, o2. Qed.

Lemma merge_merge w u1 u2 :
  merge (merge w u1) u2 = merge w (override u1 u2).
Proof. unfold merge, override. simpl. f_equal; apply default_later. Qed.

Lemma merge_keeps_id w updates :
  PartialWidget.id updates = None -> Widget.id (merge w updates) = Widget.id w.
Proof. intros Hid. simpl. by rewrite Hid. Qed.

(** X5: two updates of the same id, the first of which does not supply
    an id, amount to the single update that spreads the second over the
    first; and an update that supplies nothing changes nothing. *)
Theorem updateWidget_twice (id : string) (u1 u2 : PartialWidget.t)
    (s : DashboardState.t) :
  PartialWidget.id u1 = None ->
  updateWidget id u2 (updateWidget id u1 s) = updateWidget id (override u1 u2) s
  /\ updateWidget id PartialWidget.empty s = s.
Proof.
  intros Hid. destruct s as [layouts widgets]. unfold updateWidget. simpl.
  split; f_equal.
  - rewrite map_map. apply map_ext. intros w.
    destruct (String.eqb (Widget.id w) id) eqn:Hw; [|by rewrite Hw].
    by rewrite (merge_keeps_id _ _ Hid), Hw, merge_merge.
  - rewrite <- (map_id widgets) at 2. apply map_ext. intros w.
    destruct (String.eqb (Widget.id w) id); [|done]. by destruct w.
Qed.

Lemma updateWidget_twice_witness :
  updateWidget "widget-1000" unbindQuery
    (updateWidget "widget-1000" (titleOnly "Fees") (sampleState "select 1")) =
  updateWidget "widget-1000" (override (titleOnly "Fees") unbindQuery)
    (sampleState "select 1").
Proof.
  apply (updateWidget_twice "widget-1000" (titleOnly "Fees") unbindQuery
           (sampleState "select 1")).
  reflexivity.
Defined.

(** X6: updates of two different ids, neither of which supplies an id,
    can be applied in either order. *)
Theorem updateWidget_commutes (a b : string) (u1 u2 : PartialWidget.t)
    (s : DashboardState.t) :
  a <> b ->
  PartialWidget.id u1 = None -> PartialWidget.id u2 = None ->
  updateWidget a u1 (updateWidget b u2 s) =
  updateWidget b u2 (updateWidget a u1 s).
Proof.
  intros Hab H1 H2. unfold updateWidget. simpl. f_equal.
  rewrite !map_map. apply map_ext. intros w.
  destruct (String.eqb_spec (Widget.id w) a) as [Ha|Ha],
           (String.eqb_spec (Widget.id w) b) as [Hb|Hb].
  - congruence.
  - rewrite (merge_keeps_id _ _ H1).
    destruct (String.eqb_spec (Widget.id w) a); [|done].
    by destruct (String.eqb_spec (Widget.id w) b).
  - rewrite (merge_keeps_id _ _ H2).
    destruct (String.eqb_spec (Widget.id w) b); [|done].
    by destruct (String.eqb_spec (Widget.id w) a).
  - destruct (String.eqb_spec (Widget.id w) a); [done|].
    by destruct (String.eqb_spec (Widget.id w) b).
Qed.

Lemma updateWidget_commutes_witness :
  let s :=
    addWidgets [(1730505600000%Z, bar); (1730505600250%Z, table)]
      initialDashboardState in
  updateWidget "widget-1730505600000" (titleOnly "Fees")
    (updateWidget "widget-1730505600250" (titleOnly "Volume") s) =
  updateWidget "widget-1730505600250" (titleOnly "Volume")
    (updateWidget "widget-1730505600000" (titleOnly "Fees") s).
Proof.
  apply (updateWidget_commutes "widget-1730505600000" "widget-1730505600250"
           (titleOnly "Fees") (titleOnly "Volume")).
  - discriminate.
  - reflexivity.
  - reflexivity.
Defined.

(** ** The configuration panel *)

Lemma find_map_id (f : Widget.t -> Widget.t) id widgets :
  (forall w, Widget.id (f w) = Widget.id w) ->
  List.find (fun w => String.eqb (Widget.id w) id) (map f widgets) =
  f <$> List.find (fun w => String.eqb (Widget.id w) id) widgets.
Proof.
  intros Hf. induction widgets as [|w widgets IH]; simpl; [done|].
  rewrite Hf. by destruct (String.eqb (Widget.id w) id).
Qed.

(** X7: the widget the configuration panel shows is the first one whose
    id is the selected id.  An update of that id which supplies no id
    shows in the panel; a widget added later never takes the place of a
    widget the selection already resolves to, even under the same id; and
    a widget added under an id no other widget has is the one its id
    selects. *)
Theorem selectedWidgetData_first_match (s : DashboardState.t) (id : string) :
  (forall w, selectedWidgetData s (Some id) = Some w ->
     Widget.id w = id /\ w ∈ DashboardState.widgets s)
  /\ (forall updates, PartialWidget.id updates = None ->
        selectedWidgetData (updateWidget id updates s) (Some id) =
        (fun w => merge w updates) <$> selectedWidgetData s (Some id))
  /\ (forall now type w, selectedWidgetData s (Some id) = Some w ->
        selectedWidgetData (addWidget now type s) (Some id) = Some w)
  /\ (forall now type,
        (forall w, w ∈ DashboardState.widgets s ->
                   Widget.id w <> "widget-" +:+ pretty now) ->
        selectedWidgetData (addWidget now type s)
          (Some ("widget-" +:+ pretty now)) = Some (newWidget now type)).
Proof.
  split; [|split; [|split]].
  - intros w Hw. apply find_some in Hw as [Hin Heq].
    split; [by apply String.eqb_eq|by apply list_elem_of_In].
  - intros updates Hid. unfold selectedWidgetData. simpl.
    induction (DashboardState.widgets s) as [|w widgets IH]; simpl; [done|].
    destruct (String.eqb (Widget.id w) id) eqn:Hw.
    + by rewrite (merge_keeps_id _ _ Hid), Hw.
    + by rewrite Hw.
  - intros now type w Hw. unfold selectedWidgetData in *.
    rewrite widgets_addWidget.
    induction (DashboardState.widgets s) as [|w' widgets IH]; simpl in *;
      [done|].
    destruct (String.eqb (Widget.id w') id); [done|by apply IH].
  - intros now type Hfresh. unfold selectedWidgetData.
    rewrite widgets_addWidget.
    induction (DashboardState.widgets s) as [|w widgets IH]; simpl.
    + by rewrite String.eqb_refl.
    + destruct (String.eqb_spec (Widget.id w) ("widget-" +:+ pretty now))
        as [Heq|_].
      * exfalso. by apply (Hfresh w); [left|].
      * apply IH. intros w' Hw'. apply Hfresh. by right.
Qed.

Lemma selectedWidgetData_first_match_witness :
  selectedWidgetData
    (addWidget 1730505600000 bar
       (addWidget 1730505600000 pie initialDashboardState))
    (Some "widget-1730505600000") =
  Some (newWidget 1730505600000 pie).
Proof.
  apply (selectedWidgetData_first_match
           (addWidget 1730505600000 pie initialDashboardState)
           "widget-1730505600000").
  reflexivity.
Defined.

(** ** Saving *)

Lemma exec_saveDashboard_no_name dashboardId now createdAt updatedAt w :
  truthy (Page.dashboardName (World.page w)) = false ->
  exec (saveDashboard dashboardId now createdAt updatedAt) w =
  World.mk (World.page w) (World.store w)
    (World.log w ++ [toasted nameRequired]).
Proof.
  intros Hname. unfold exec, saveDashboard, bind, getPage. simpl.
  by rewrite Hname.
Qed.

Lemma exec_onSave dashboardId now createdAt updatedAt name description w :
  exec (onSave dashboardId now createdAt updatedAt name description) w =
  let saved := exec (saveDashboard dashboardId now createdAt updatedAt) w in
  World.mk
    (Page.mk name description (Page.dashboardState (World.page w))
       (Page.showQueryDialog (World.page w))
       (Page.selectedWidgetId (World.page w))
       (Page.showDashboardsDialog (World.page w)))
    (World.store saved) (World.log saved).
Proof. by destruct w. Qed.

(** X8: the save dialog's [onSave] stores the name and the description
    the page had when it was drawn, not the ones the dialog passes: these
    only reach the hooks.  On a page drawn without a name nothing is
    stored and the validation notification is raised, whatever name the
    dialog passes; a second submission of the same entries stores them. *)
Theorem onSave_saves_rendered_hooks (dashboardId : option string) (now : Z)
    (createdAt updatedAt : string) (name description : string) (w : World.t) :
  let after :=
    exec (onSave dashboardId now createdAt updatedAt name description) w in
  Page.dashboardName (World.page after) = name
  /\ Page.dashboardDescription (World.page after) = description
  /\ Page.dashboardState (World.page after) = Page.dashboardState (World.page w)
  /\ (Page.dashboardName (World.page w) = "" ->
        World.store after = World.store w
        /\ World.log after = World.log w ++ [toasted nameRequired])
  /\ (truthy (Page.dashboardName (World.page w)) = true ->
        exists record,
          World.store after !! dashboardId_or_new dashboardId now = Some record
          /\ Dashboard.name record = Page.dashboardName (World.page w)
          /\ Dashboard.description record =
               Page.dashboardDescription (World.page w))
  /\ (truthy name = true ->
        forall now' createdAt' updatedAt',
        exists record,
          World.store
            (exec (onSave dashboardId now' createdAt' updatedAt'
                     name description) after)
            !! dashboardId_or_new dashboardId now' = Some record
          /\ Dashboard.name record = name
          /\ Dashboard.description record = description).
Proof.
  intros after. subst after. rewrite exec_onSave. cbv zeta.
  split; [done|]. split; [done|]. split; [done|]. split; [|split].
  - intros Hname. rewrite exec_saveDashboard_no_name; [done|].
    by rewrite Hname.
  - intros Hname. rewrite (exec_saveDashboard _ _ _ _ _ Hname). simpl.
    eexists. split; [apply lookup_insert_eq|done].
  - intros Hname now' createdAt' updatedAt'.
    generalize (exec (saveDashboard dashboardId now createdAt updatedAt) w).
    intros saved. rewrite exec_onSave. cbv zeta.
    rewrite exec_saveDashboard by exact Hname. simpl.
    eexists. split; [apply lookup_insert_eq|done].
Qed.

Lemma onSave_saves_rendered_hooks_witness :
  let after :=
    exec (onSave None 1730505600000 "2024-11-02T00:00:00.000Z"
            "2024-11-02T00:00:00.000Z" "Fees" "Fee revenue")
         (World.mk initialPage ∅ []) in
  World.store after = ∅
  /\ World.log after = [toasted nameRequired].
Proof.
  apply (onSave_saves_rendered_hooks None 1730505600000
           "2024-11-02T00:00:00.000Z" "2024-11-02T00:00:00.000Z"
           "Fees" "Fee revenue" (World.mk initialPage ∅ [])).
  reflexivity.
Defined.



(** ** Round trips, again *)

Lemma restore_persist_restore p :
  restoreWidget (persistWidget (restoreWidget p)) = restoreWidget p.
Proof.
  destruct p as [id type title [query|] options data]; [|done].
  unfold restoreWidget, persistWidget. simpl.
  destruct (truthy query) eqn:Hq; simpl; [|done]. by rewrite Hq.
Qed.

(** X10: a second round trip changes nothing: once a dashboard has been
    saved and loaded, saving the loaded page (under any id, at any time)
    and loading it again yields the same name and the same dashboard
    state. *)
Theorem round_trip_twice (dashboardId : option string) (now : Z)
    (createdAt updatedAt : string) (w : World.t) (mounted : Page.t) :
  truthy (Page.dashboardName (World.page w)) = true ->
  let once :=
    World.page (save_then_load dashboardId now createdAt updatedAt w mounted) in
  forall dashboardId' now' createdAt' updatedAt' store' log' mounted',
    let twice :=
      World.page
        (save_then_load dashboardId' now' createdAt' updatedAt'
           (World.mk once store' log') mounted') in
    Page.dashboardName twice = Page.dashboardName once
    /\ Page.dashboardState twice = Page.dashboardState once.
Proof.
  intros Hname once dashboardId' now' createdAt' updatedAt' store' log'
    mounted' twice.
  subst twice once.
  rewrite (save_then_load_page dashboardId now _ _ _ _ Hname).
  rewrite save_then_load_page by exact Hname. simpl.
  split; [done|]. f_equal.
  rewrite !map_map. apply map_ext. intros widget.
  apply restore_persist_restore.
Qed.

Lemma round_trip_twice_witness :
  let once :=
    World.page
      (save_then_load None 1730505600000 "2024-11-02T00:00:00.000Z"
         "2024-11-02T00:00:00.000Z" (sampleWorld "Fee revenue" "select 1")
         initialPage) in
  let twice :=
    World.page
      (save_then_load (Some "dashboard-1730505600000") 1730505660000
         "2024-11-02T00:01:00.000Z" "2024-11-02T00:01:00.000Z"
         (World.mk once ∅ []) otherPage) in
  Page.dashboardName twice = Page.dashboardName once
  /\ Page.dashboardState twice = Page.dashboardState once.
Proof.
  apply (round_trip_twice None 1730505600000 "2024-11-02T00:00:00.000Z"
           "2024-11-02T00:00:00.000Z" (sampleWorld "Fee revenue" "select 1")
           initialPage eq_refl (Some "dashboard-1730505600000") 1730505660000
           "2024-11-02T00:01:00.000Z" "2024-11-02T00:01:00.000Z" ∅ []
           otherPage).
Defined.

(** ** What the handlers leave alone *)

Lemma exec_loadDashboardEffect_missing id w :
  truthy id = true -> World.store w !! id = None ->
  exec (loadDashboardEffect (Some id)) w =
  World.mk (World.page w) (World.store w)
    (World.log w ++ [service_getDashboardById id; toasted notFound;
                     navigated "/dashboard"]).
Proof.
  intros Hid Hd. unfold exec, loadDashboardEffect. rewrite Hid.
  unfold bind, DashboardService_getDashboardById. rewrite Hd. simpl.
  by rewrite <- !app_assoc.
Qed.

Lemma exec_loadDashboardEffect_no_id dashboardId w :
  no_id dashboardId = true -> exec (loadDashboardEffect dashboardId) w = w.
Proof.
  destruct dashboardId as [id|]; simpl; [|done].
  intros Hid. apply negb_true_iff in Hid. unfold exec. simpl.
  by rewrite Hid.
Qed.

(** The three ways the load effect can go. *)
Lemma exec_loadDashboardEffect_cases dashboardId w :
  exec (loadDashboardEffect dashboardId) w = w
  \/ (exists id, dashboardId = Some id
        /\ exec (loadDashboardEffect dashboardId) w =
           World.mk (World.page w) (World.store w)
             (World.log w ++ [service_getDashboardById id; toasted notFound;
                              navigated "/dashboard"]))
  \/ (exists id d, dashboardId = Some id /\ World.store w !! id = Some d
        /\ exec (loadDashboardEffect dashboardId) w =
           World.mk
             (Page.mk (Dashboard.name d)
                (if truthy (Dashboard.description d)
                 then Dashboard.description d
                 else Page.dashboardDescription (World.page w))
                (loadedState d)
                (Page.showQueryDialog (World.page w))
                (Page.selectedWidgetId (World.page w))
                (Page.showDashboardsDialog (World.page w)))
             (World.store w)
             (World.log w ++ [service_getDashboardById id; toasted loadedToast])).
Proof.
  destruct (no_id dashboardId) eqn:Hno.
  { left. by apply exec_loadDashboardEffect_no_id. }
  destruct dashboardId as [id|]; [|done]. simpl in Hno.
  apply negb_false_iff in Hno. right.
  destruct (World.store w !! id) as [d|] eqn:Hd.
  - right. exists id, d. split; [done|]. split; [done|].
    by apply exec_loadDashboardEffect_found.
  - left. exists id. split; [done|].
    by apply exec_loadDashboardEffect_missing.
Qed.

Lemma exec_exportDashboard VITE_STARKNET_RPC_URL now w :
  exists dataStr,
    exec (exportDashboard VITE_STARKNET_RPC_URL now) w =
    World.mk (World.page w) (World.store w)
      (World.log w ++
         [downloaded dataStr
            (or_else (Page.dashboardName (World.page w)) "dashboard" +:+ "_"
               +:+ pretty now +:+ ".json");
          toasted exportedToast])
    /\ dataStr =
       JSON_stringify
         (VObject
            [("name", VString (Page.dashboardName (World.page w)));
             ("description", VString (Page.dashboardDescription (World.page w)));
             ("layouts",
              Layout_value
                (DashboardState.layouts (Page.dashboardState (World.page w))));
             ("widgets",
              VArray (map Widget_value
                (DashboardState.widgets (Page.dashboardState (World.page w)))));
             ("rpc_endpoint", VString (RPC_ENDPOINT VITE_STARKNET_RPC_URL))])
         2.
Proof.
  eexists. split; [|reflexivity].
  unfold exec, exportDashboard, bind, getPage, toast, emit. simpl.
  by rewrite <- app_assoc.
Qed.

Lemma page_saveDashboard dashboardId now createdAt updatedAt w :
  World.page (exec (saveDashboard dashboardId now createdAt updatedAt) w) =
  World.page w.
Proof.
  destruct (truthy (Page.dashboardName (World.page w))) eqn:Hname.
  - by rewrite exec_saveDashboard.
  - by rewrite exec_saveDashboard_no_name.
Qed.

(** X11: what the handlers never do.  [saveDashboard] never changes a
    hook of the page; [exportDashboard] changes neither the hooks nor the
    store; the load effect never writes to the store and never changes
    the selection or the two dialog flags; and none of the three removes
    or rewrites an entry of the effect log. *)
Theorem handlers_leave_alone (dashboardId : option string) (now : Z)
    (createdAt updatedAt : string) (VITE_STARKNET_RPC_URL : option string)
    (w : World.t) :
  let saved := exec (saveDashboard dashboardId now createdAt updatedAt) w in
  let exported := exec (exportDashboard VITE_STARKNET_RPC_URL now) w in
  let loaded := exec (loadDashboardEffect dashboardId) w in
  World.page saved = World.page w
  /\ World.log w `prefix_of` World.log saved
  /\ World.page exported = World.page w
  /\ World.store exported = World.store w
  /\ World.log w `prefix_of` World.log exported
  /\ World.store loaded = World.store w
  /\ Page.selectedWidgetId (World.page loaded) =
       Page.selectedWidgetId (World.page w)
  /\ Page.showQueryDialog (World.page loaded) =
       Page.showQueryDialog (World.page w)
  /\ Page.showDashboardsDialog (World.page loaded) =
       Page.showDashboardsDialog (World.page w)
  /\ World.log w `prefix_of` World.log loaded.
Proof.
  intros saved exported loaded. subst saved exported loaded.
  split; [apply page_saveDashboard|]. split.
  { destruct (truthy (Page.dashboardName (World.page w))) eqn:Hname.
    - rewrite exec_saveDashboard by done. apply prefix_app_r. done.
    - rewrite exec_saveDashboard_no_name by done. by apply prefix_app_r. }
  destruct (exec_exportDashboard VITE_STARKNET_RPC_URL now w)
    as (dataStr & -> & _).
  split; [done|]. split; [done|]. split; [by apply prefix_app_r|].
  destruct (exec_loadDashboardEffect_cases dashboardId w)
    as [->|[(id & _ & ->)|(id & d & _ & _ & ->)]]; simpl;
    repeat split; try done; by apply prefix_app_r.
Qed.

(** ** Runs of the page *)

Lemma tame_addWidget now type s : tame s -> tame (addWidget now type s).
Proof.
  intros Hs. unfold tame. rewrite widgets_addWidget. apply Forall_app.
  split; [exact Hs|]. constructor; [|constructor].
  split; [|done]. repeat split. by left.
Qed.

Lemma tame_updateWidget id updates s :
  page_update updates -> tame s -> tame (updateWidget id updates s).
Proof.
  intros (Hid & _ & Hx & Hy & Hw & Hh & _ & Hquery) Hs.
  unfold tame in *. simpl.
  change (map ?f ?l) with (f <$> l). apply Forall_fmap.
  eapply Forall_impl; [exact Hs|].
  intros widget [Hgeometry Hsynthetic]. simpl.
  destruct (String.eqb (Widget.id widget) id); [|done].
  split.
  - unfold default_geometry. simpl. by rewrite Hx, Hy, Hw, Hh.
  - intros q. unfold synthetic. simpl. rewrite Hid. simpl.
    destruct (PartialWidget.savedQuery updates) as [[query|]|]; simpl.
    + unfold savedQueries in Hquery. by apply not_elem_of_nil in Hquery.
    + done.
    + apply Hsynthetic.
Qed.

Lemma tame_loadedState d : tame (loadedState d).
Proof.
  unfold tame, loadedState. simpl.
  change (map ?f ?l) with (f <$> l). apply Forall_fmap, Forall_true.
  intros p. split.
  - repeat split. by right.
  - intros q. simpl.
    destruct (PersistedWidget.query p) as [query|]; [|done].
    destruct (truthy query) eqn:Hquery; [|done].
    intros [= <-]. by repeat split.
Qed.

Lemma exec_setDashboardState f w :
  Page.dashboardState (World.page (exec (setDashboardState f) w)) =
  f (Page.dashboardState (World.page w)).
Proof. reflexivity. Qed.

(** One event keeps the widgets tame. *)
Lemma step_tame w w' :
  step w w' ->
  tame (Page.dashboardState (World.page w)) ->
  tame (Page.dashboardState (World.page w')).
Proof.
  intros Hstep Hw.
  destruct Hstep
    as [now type w|id updates w Hupdates|layouts w|name w|description w
       |id w|b w|query w Hquery|dashboardId now createdAt updatedAt w
       |dashboardId now createdAt updatedAt name description w|w
       |dashboardId w|VITE_STARKNET_RPC_URL now w].
  - rewrite exec_setDashboardState. by apply tame_addWidget.
  - rewrite exec_setDashboardState. by apply tame_updateWidget.
  - exact Hw.
  - exact Hw.
  - exact Hw.
  - exact Hw.
  - exact Hw.
  - unfold savedQueries in Hquery. by apply not_elem_of_nil in Hquery.
  - by rewrite page_saveDashboard.
  - by rewrite exec_onSave.
  - exact Hw.
  - destruct (exec_loadDashboardEffect_cases dashboardId w)
      as [->|[(id & _ & ->)|(id & d & _ & _ & ->)]]; try exact Hw.
    apply tame_loadedState.
  - by destruct (exec_exportDashboard VITE_STARKNET_RPC_URL now w)
      as (dataStr & -> & _).
Qed.

Lemma no_results_no_options q :
  SavedQuery.results q = None -> xAxisOptions q = [] /\ yAxisOptions q = [].
Proof.
  intros Hq. unfold xAxisOptions, yAxisOptions, firstResults.
  by rewrite Hq.
Qed.

Lemma rtc_tame w w' :
  rtc step w w' ->
  tame (Page.dashboardState (World.page w)) ->
  tame (Page.dashboardState (World.page w')).
Proof.
  induction 1 as [w|w w' w'' Hstep _ IH]; intros Hw; [exact Hw|].
  apply IH. by apply (step_tame w w').
Qed.

(** X12: along every run of the page from its initial hooks, whatever
    the store holds, each widget's own position and size stay the
    defaults (x 0, y Infinity or 0, w 6, h 4: drags and resizes reach the
    layouts only), and every bound query is one the load effect built: id
    "query-" + widget id, a text that is not empty, an empty description
    and no results, so that both axis selects of every widget are
    empty. *)
Theorem page_runs_stay_tame (store : gmap string Dashboard.t) (w : World.t) :
  rtc step (World.mk initialPage store []) w ->
  Forall (fun widget =>
            default_geometry widget
            /\ forall q, Widget.savedQuery widget = Some q ->
                 synthetic widget q
                 /\ xAxisOptions q = [] /\ yAxisOptions q = [])
         (DashboardState.widgets (Page.dashboardState (World.page w))).
Proof.
  intros Hrun.
  assert (Htame : tame (Page.dashboardState (World.page w))).
  { apply (rtc_tame _ _ Hrun). constructor. }
  eapply Forall_impl; [exact Htame|].
  intros widget [Hgeometry Hsynthetic]. split; [exact Hgeometry|].
  intros q Hq. split; [by apply Hsynthetic|].
  apply no_results_no_options. by apply (Hsynthetic q Hq).
Qed.

Lemma page_runs_stay_tame_witness :
  let w :=
    exec (loadDashboardEffect (Some "dashboard-7"))
         (exec (setDashboardState (addWidget 1730505600000 bar))
               (World.mk initialPage {["dashboard-7" := storedDashboard]} [])) in
  Forall (fun widget =>
            default_geometry widget
            /\ forall q, Widget.savedQuery widget = Some q ->
                 synthetic widget q
                 /\ xAxisOptions q = [] /\ yAxisOptions q = [])
         (DashboardState.widgets (Page.dashboardState (World.page w))).
Proof.
  apply (page_runs_stay_tame {["dashboard-7" := storedDashboard]}).
  eapply rtc_l; [apply step_addWidget|].
  eapply rtc_l; [apply step_loadDashboardEffect|]. apply rtc_refl.
Defined.

(** ** Export, again *)

Lemma built_widgets_new s :
  built s ->
  Forall (fun widget => exists now type, widget = newWidget now type)
         (DashboardState.widgets s).
Proof.
  induction 1 as [|now type s Hs IH]; [constructor|].
  rewrite widgets_addWidget. apply Forall_app. split; [exact IH|].
  constructor; [by eexists _, _|constructor].
Qed.

Lemma exported_items_y_null (items : list LayoutItem.t) :
  Forall (fun l => LayoutItem.y l = Infinity) items ->
  Forall (fun j => json_y j = Some JNull)
    (map (fun e => default JNull (toJSON e)) (map LayoutItem_value items)).
Proof.
  induction 1 as [|[i x y w h] items Hy _ IH]; simpl in *; constructor;
    [|exact IH].
  subst y. by destruct x, w, h.
Qed.

(** X13: the append-at-end row does not survive an export.  For a page
    whose dashboard state the palette built, the exported document
    writes [null] for the [y] of every widget and of every layout item of
    every breakpoint, [JSON.stringify] having no text for Infinity. *)
Theorem export_writes_Infinity_as_null (VITE_STARKNET_RPC_URL : option string)
    (now : Z) (w : World.t) :
  built (Page.dashboardState (World.page w)) ->
  exists dataStr file props exported lprops,
    World.log (exec (exportDashboard VITE_STARKNET_RPC_URL now) w) =
      World.log w ++ [downloaded dataStr file; toasted exportedToast]
    /\ JSON_parse dataStr = Some (JObject props)
    /\ Get props "widgets" = Some (JArray exported)
    /\ length exported =
         length (DashboardState.widgets (Page.dashboardState (World.page w)))
    /\ Forall (fun j => json_y j = Some JNull) exported
    /\ Get props "layouts" = Some (JObject lprops)
    /\ forall b, exists items,
         Get lprops (BreakPoint_name b) = Some (JArray items)
         /\ length items =
              length (DashboardState.widgets (Page.dashboardState (World.page w)))
         /\ Forall (fun j => json_y j = Some JNull) items.
Proof.
  intros Hbuilt.
  destruct (exec_exportDashboard VITE_STARKNET_RPC_URL now w)
    as (dataStr & -> & ->).
  set (s := Page.dashboardState (World.page w)) in *.
  eexists _, _, _,
    (map (fun e => default JNull (toJSON e))
         (map Widget_value (DashboardState.widgets s))), _.
  split; [reflexivity|]. split; [reflexivity|]. split; [reflexivity|].
  split; [by rewrite !length_map|]. split.
  { pose proof (built_widgets_new s Hbuilt) as Hnew.
    induction Hnew as [|widget widgets (now' & type & ->) _ IH]; simpl;
      constructor; [reflexivity|exact IH]. }
  split; [reflexivity|].
  intros b.
  exists (map (fun e => default JNull (toJSON e))
            (map LayoutItem_value (layout_of b (DashboardState.layouts s)))).
  split; [by destruct b|]. split.
  - rewrite !length_map, <- (length_map LayoutItem.i).
    rewrite (layout_keys_sync s b Hbuilt). apply length_map.
  - apply exported_items_y_null.
    eapply Forall_impl; [apply (layout_items_default s b Hbuilt)|].
    by intros l (_ & _ & _ & Hy).
Qed.

Lemma export_writes_Infinity_as_null_witness :
  let w :=
    World.mk
      (Page.mk "Fees" "" (addWidget 1730505600000 bar initialDashboardState)
         false None false) ∅ [] in
  exists dataStr file props exported lprops,
    World.log (exec (exportDashboard None 1730505660000) w) =
      World.log w ++ [downloaded dataStr file; toasted exportedToast]
    /\ JSON_parse dataStr = Some (JObject props)
    /\ Get props "widgets" = Some (JArray exported)
    /\ length exported =
         length (DashboardState.widgets (Page.dashboardState (World.page w)))
    /\ Forall (fun j => json_y j = Some JNull) exported
    /\ Get props "layouts" = Some (JObject lprops)
    /\ forall b, exists items,
         Get lprops (BreakPoint_name b) = Some (JArray items)
         /\ length items =
              length (DashboardState.widgets (Page.dashboardState (World.page w)))
         /\ Forall (fun j => json_y j = Some JNull) items.
Proof.
  apply (export_writes_Infinity_as_null None 1730505660000
           (World.mk
              (Page.mk "Fees" ""
                 (addWidget 1730505600000 bar initialDashboardState)
                 false None false) ∅ [])).
  simpl. repeat constructor.
Defined.

(** ** Axis candidates, again *)

Lemma Get_key {A : Type} (row : list (string * A)) key v :
  Get row key = Some v -> key ∈ Object_keys row.
Proof.
  induction row as [|[k v'] row IH]; simpl; [done|].
  destruct (String.eqb_spec k key) as [->|_]; [by left|].
  intros Hv. right. by apply IH.
Qed.

(** When a key of the first row is a Y-axis candidate. *)
Lemma elem_of_yAxisOptions q row rows key v :
  firstResults q = Some (row :: rows) ->
  Get row key = Some v ->
  key ∈ yAxisOptions q <-> typeof_number v || negb (isNaN_Number v) = true.
Proof.
  intros Hfirst Hv. unfold yAxisOptions. rewrite Hfirst.
  change (firstRow (row :: rows)) with row.
  rewrite list_elem_of_In, filter_In, <- list_elem_of_In, Hv. simpl.
  split.
  - intros [_ Hnum]. exact Hnum.
  - intros Hnum. split; [|exact Hnum]. by apply (Get_key row key v).
Qed.

(** X14: the Y-axis candidates are a sublist of the X-axis candidates,
    which are the keys of the first row of the first result set; both
    lists are empty when the query has no results, no result set, a first
    result set without a rows array, or no row; and nothing but that
    first row has a say. *)
Theorem axis_options_from_first_row (q : SavedQuery.t) :
  sublist (yAxisOptions q) (xAxisOptions q)
  /\ (forall row rows, firstResults q = Some (row :: rows) ->
        xAxisOptions q = Object_keys row)
  /\ (firstResults q = None \/ firstResults q = Some [] ->
        xAxisOptions q = [] /\ yAxisOptions q = [])
  /\ (firstResults q = None <->
        SavedQuery.results q = None
        \/ SavedQuery.results q = Some []
        \/ exists r rs, SavedQuery.results q = Some (r :: rs)
                        /\ ResultSet.results r = None)
  /\ (forall q', firstRow <$> firstResults q' = firstRow <$> firstResults q ->
        xAxisOptions q' = xAxisOptions q /\ yAxisOptions q' = yAxisOptions q).
Proof.
  split; [|split; [|split; [|split]]].
  - unfold yAxisOptions, xAxisOptions.
    destruct (firstResults q); [apply filter_sublist|constructor].
  - intros row rows Hfirst. unfold xAxisOptions. by rewrite Hfirst.
  - unfold xAxisOptions, yAxisOptions. by intros [->| ->].
  - unfold firstResults. destruct (SavedQuery.results q) as [[|r rs]|]; simpl.
    + split; [by right; left|done].
    + split.
      * intros Hr. right. right. by exists r, rs.
      * intros [?|[?|(r' & rs' & [= <- <-] & Hr)]]; done.
    + split; [by left|done].
  - intros q' Hsame. unfold xAxisOptions, yAxisOptions.
    destruct (firstResults q') as [rows'|], (firstResults q) as [rows|];
      simpl in Hsame; try done.
    injection Hsame as ->. done.
Qed.

Lemma axis_options_from_first_row_witness :
  xAxisOptions (sampleQuery "select 1") = []
  /\ yAxisOptions (sampleQuery "select 1") = [].
Proof.
  destruct (axis_options_from_first_row (sampleQuery "select 1"))
    as (_ & _ & Hempty & _).
  apply Hempty. left. reflexivity.
Defined.

(** ** Numbers written as text *)

Lemma is_dec_pretty_N_char x : is_dec (pretty_N_char x) = true.
Proof. unfold pretty_N_char. by repeat case_match. Qed.

Lemma pretty_N_go_digits x s :
  decimal_digits s -> decimal_digits (pretty_N_go x s).
Proof.
  revert s. induction (N.lt_wf_0 x) as [x _ IH]. intros s Hs.
  destruct (decide (x = 0)%N) as [->|Hx]; [by rewrite pretty_N_go_0|].
  rewrite pretty_N_go_step by lia. apply IH.
  - apply N.div_lt; lia.
  - destruct Hs as (c & r & -> & Hc & Hr).
    eexists _, _. split; [reflexivity|]. split.
    + apply is_dec_pretty_N_char.
    + simpl. by rewrite Hc.
Qed.

Lemma pretty_N_digits (x : N) : decimal_digits (pretty x).
Proof.
  unfold pretty, pretty_N. destruct (decide (x = 0)%N) as [->|Hx].
  - by exists "0"%char, "".
  - rewrite pretty_N_go_step by lia. apply pretty_N_go_digits.
    eexists _, _. split; [reflexivity|]. split; [|done].
    apply is_dec_pretty_N_char.
Qed.

(** A digit is no white space, no sign, no dot and no letter. *)
Ltac digit_cases c Hc :=
  destruct c as [[] [] [] [] [] [] [] []]; try discriminate Hc; clear Hc.

Lemma skip_ws_digit c r :
  is_dec c = true -> skip_ws (String c r) = String c r.
Proof.
  intros Hc. digit_cases c Hc;
    (destruct r as [|c2 [|c3 r3]]; reflexivity).
Qed.

Lemma skip_while_digit c r :
  skip_while is_dec (String c r) = "" ->
  is_dec c = true /\ skip_while is_dec r = "".
Proof. simpl. by destruct (is_dec c). Qed.

Lemma StrUnsignedDecimalLiteral_digits s :
  decimal_digits s -> StrUnsignedDecimalLiteral s = Some "".
Proof.
  intros (c & r & -> & Hc & Hr). unfold StrUnsignedDecimalLiteral.
  assert (Hdigits : digits1 is_dec (String c r) = Some "").
  { simpl. by rewrite Hc, Hr. }
  digit_cases c Hc; simpl in *; by rewrite Hr.
Qed.

Lemma StrNumericLiteral_digits s :
  decimal_digits s -> StrNumericLiteral s = Some "".
Proof.
  intros Hs. pose proof (StrUnsignedDecimalLiteral_digits s Hs) as Hdec.
  destruct Hs as (c & r & -> & Hc & Hr). unfold StrNumericLiteral.
  assert (Hsign : skip_sign (String c r) = String c r).
  { by digit_cases c Hc. }
  rewrite Hsign, Hdec.
  digit_cases c Hc; try reflexivity.
  destruct r as [|c' r']; [reflexivity|].
  apply skip_while_digit in Hr as [Hc' _].
  by digit_cases c' Hc'.
Qed.

Lemma StringToNumber_isNaN_literal c r :
  skip_ws (String c r) = String c r ->
  StringToNumber_isNaN (String c r) =
  match StrNumericLiteral (String c r) with
  | Some rest => truthy (skip_ws rest)
  | None => true
  end.
Proof. intros Hws. unfold StringToNumber_isNaN. by rewrite Hws. Qed.

Lemma digits_numeric s :
  decimal_digits s ->
  StringToNumber_isNaN s = false
  /\ StringToNumber_isNaN ("-" +:+ s) = false.
Proof.
  intros Hs. pose proof (StrNumericLiteral_digits s Hs) as Hnum.
  pose proof (StrUnsignedDecimalLiteral_digits s Hs) as Hdec.
  destruct Hs as (c & r & -> & Hc & Hr). split.
  - rewrite (StringToNumber_isNaN_literal c r (skip_ws_digit c r Hc)).
    by rewrite Hnum.
  - change ("-" +:+ String c r) with (String "-" (String c r)).
    rewrite StringToNumber_isNaN_literal.
    + change (StrNumericLiteral (String "-" (String c r)))
        with (StrUnsignedDecimalLiteral (String c r)).
      by rewrite Hdec.
    + digit_cases c Hc; (destruct r as [|c3 r3]; reflexivity).
Qed.

Lemma pretty_Z_numeric (z : Z) : StringToNumber_isNaN (pretty z) = false.
Proof.
  destruct z as [|p|p]; [reflexivity| |].
  - apply (digits_numeric (pretty (Npos p))), pretty_N_digits.
  - apply (digits_numeric (pretty (Npos p))), pretty_N_digits.
Qed.

(** X15: a number written out and read back is NaN only if it was NaN:
    [isNaN(Number(String(n)))] is [isNaN(n)] for every number, and so is
    [isNaN(Number([n]))] for the array that holds it alone. *)
Theorem number_text_round_trip (n : number) :
  isNaN_Number (VString (Number_toString n)) = isNaN_Number (VNumber n)
  /\ isNaN_Number (VArray [VNumber n]) = isNaN_Number (VNumber n).
Proof.
  assert (Htext : StringToNumber_isNaN (Number_toString n) =
                  bool_decide (n = NaN)).
  { destruct n as [z| | |]; try reflexivity. simpl.
    by rewrite pretty_Z_numeric. }
  by split.
Qed.

(** X16: which cells of the first row make their key a Y-axis candidate.
    A cell that is [null], a boolean, any number (NaN included, its type
    being number), the empty array, the decimal text of an integer or the
    one-item array of an integer does; a cell that is [undefined] or an
    object does not; a string does exactly when it is white space or a
    numeric literal between white space. *)
Theorem yAxis_candidate_cells (q : SavedQuery.t) (row : list (string * value))
    (rows : list (list (string * value))) (key : string) (v : value) :
  firstResults q = Some (row :: rows) ->
  Get row key = Some v ->
  match v with
  | VNull | VBool _ | VNumber _ | VArray [] => key ∈ yAxisOptions q
  | VUndefined | VObject _ => key ∉ yAxisOptions q
  | VString s => key ∈ yAxisOptions q <-> StringToNumber_isNaN s = false
  | VArray _ => True
  end
  /\ (forall z, v = VString (pretty z) \/ v = VArray [VNumber (Finite z)] ->
        key ∈ yAxisOptions q).
Proof.
  intros Hfirst Hv.
  pose proof (elem_of_yAxisOptions q row rows key v Hfirst Hv) as Hiff.
  split.
  - destruct v as [| |b|n|s|[|e items]|props]; try done;
      try (by apply Hiff).
    + by intros Hin%Hiff.
    + rewrite Hiff. simpl. by rewrite negb_true_iff.
    + by intros Hin%Hiff.
  - intros z [-> | ->]; apply Hiff; simpl.
    + by rewrite pretty_Z_numeric.
    + change (isNaN_Number (VArray [VNumber (Finite z)]))
        with (StringToNumber_isNaN (pretty z)).
      by rewrite pretty_Z_numeric.
Qed.

Lemma yAxis_candidate_cells_witness :
  "fee" ∈ yAxisOptions
    (SavedQuery.mk "q-17" "Daily volume" None "select day, fee from t"
       (Some [ResultSet.mk
                (Some [[("day", VString "2024-11-02");
                        ("fee", VString (pretty 1250%Z))]])])).
Proof.
  destruct (yAxis_candidate_cells
              (SavedQuery.mk "q-17" "Daily volume" None
                 "select day, fee from t"
                 (Some [ResultSet.mk
                          (Some [[("day", VString "2024-11-02");
                                  ("fee", VString (pretty 1250%Z))]])]))
              [("day", VString "2024-11-02"); ("fee", VString (pretty 1250%Z))]
              [] "fee" (VString (pretty 1250%Z)) eq_refl eq_refl)
    as [_ Hcandidate].
  apply (Hcandidate 1250%Z). left. reflexivity.
Defined.

(** ** The selects of the panel *)

(** X17: choosing a visualisation type for the widget on display changes
    the type the chart is drawn with and nothing else of the widget: the
    widget's own type, its query, its axes and its aggregation stay, so
    an aggregation chosen for a bar chart is still handed to the chart
    after a change to a line chart, although the aggregation select is
    then hidden (it is drawn for bar and pie only).  The layouts are not
    touched either. *)
Theorem onVisualizationTypeChange_keeps_rest (s : DashboardState.t)
    (id : string) (selected : Widget.t) (value : WidgetType) :
  selectedWidgetData s (Some id) = Some selected ->
  let s' := onVisualizationTypeChange selected value s in
  exists shown,
    selectedWidgetData s' (Some id) = Some shown
    /\ chartType shown = value
    /\ (aggregationShown shown = true <-> value = bar \/ value = pie)
    /\ chartAggregation shown = chartAggregation selected
    /\ Widget.visualConfig shown ≫= VisualizationConfig.xAxis =
       Widget.visualConfig selected ≫= VisualizationConfig.xAxis
    /\ Widget.visualConfig shown ≫= VisualizationConfig.yAxis =
       Widget.visualConfig selected ≫= VisualizationConfig.yAxis
    /\ Widget.type shown = Widget.type selected
    /\ Widget.title shown = Widget.title selected
    /\ Widget.savedQuery shown = Widget.savedQuery selected
    /\ DashboardState.layouts s' = DashboardState.layouts s.
Proof.
  intros Hselected s'. subst s'.
  assert (Hid : Widget.id selected = id).
  { apply find_some in Hselected as [_ Heq]. by apply String.eqb_eq. }
  exists (merge selected (retype selected value)).
  split.
  { unfold onVisualizationTypeChange. rewrite Hid.
    unfold selectedWidgetData in *. simpl.
    rewrite (find_map_id
               (fun w => if String.eqb (Widget.id w) id
                         then merge w (retype selected value) else w)).
    - rewrite Hselected. simpl. by rewrite <- Hid, String.eqb_refl.
    - intros w. by destruct (String.eqb (Widget.id w) id). }
  repeat split; try done.
  - unfold aggregationShown. simpl. intros Hshown.
    apply orb_true_iff in Hshown as [Hb|Hp].
    + left. by apply bool_decide_eq_true in Hb.
    + right. by apply bool_decide_eq_true in Hp.
  - unfold aggregationShown. simpl. by intros [-> | ->].
Qed.

Lemma onVisualizationTypeChange_keeps_rest_witness :
  let s' :=
    onVisualizationTypeChange (sampleWidget "select 1") line
      (sampleState "select 1") in
  exists shown,
    selectedWidgetData s' (Some "widget-1000") = Some shown
    /\ chartType shown = line
    /\ (aggregationShown shown = true <-> line = bar \/ line = pie)
    /\ chartAggregation shown = chartAggregation (sampleWidget "select 1")
    /\ Widget.visualConfig shown ≫= VisualizationConfig.xAxis =
       Widget.visualConfig (sampleWidget "select 1") ≫= VisualizationConfig.xAxis
    /\ Widget.visualConfig shown ≫= VisualizationConfig.yAxis =
       Widget.visualConfig (sampleWidget "select 1") ≫= VisualizationConfig.yAxis
    /\ Widget.type shown = Widget.type (sampleWidget "select 1")
    /\ Widget.title shown = Widget.title (sampleWidget "select 1")
    /\ Widget.savedQuery shown = Widget.savedQuery (sampleWidget "select 1")
    /\ DashboardState.layouts s' =
       DashboardState.layouts (sampleState "select 1").
Proof.
  apply (onVisualizationTypeChange_keeps_rest (sampleState "select 1")
           "widget-1000" (sampleWidget "select 1") line).
  reflexivity.
Defined.

(** X18: a click on a query of the dialog does nothing at all when the
    selection resolves to no widget, and the dialog then stays as it is;
    when it resolves, every widget with the selected widget's id gets the
    query and keeps its visualisation, and the dialog closes.  "Change
    Query" removes query and visualisation together, after which the
    chart type falls back to the widget's own type. *)
Theorem selectQuery_binds_selected (query : SavedQuery.t) (w : World.t) :
  let p := World.page w in
  let selection :=
    selectedWidgetData (Page.dashboardState p) (Page.selectedWidgetId p) in
  (selection = None -> exec (selectQuery query) w = w)
  /\ (forall selected, selection = Some selected ->
        let after := World.page (exec (selectQuery query) w) in
        Page.showQueryDialog after = false
        /\ Page.dashboardState after =
             updateWidget (Widget.id selected) (bindQuery query)
               (Page.dashboardState p)
        /\ selectedWidgetData (Page.dashboardState after)
             (Page.selectedWidgetId after) =
           Some (Widget.mk (Widget.id selected) (Widget.type selected)
                   (Widget.title selected) (Some query)
                   (Widget.visualConfig selected) (Widget.x selected)
                   (Widget.y selected) (Widget.w selected) (Widget.h selected)
                   (Widget.data selected))
        /\ forall shown,
             selectedWidgetData
               (onChangeQuery selected (Page.dashboardState after))
               (Page.selectedWidgetId after) = Some shown ->
             Widget.savedQuery shown = None
             /\ Widget.visualConfig shown = None
             /\ chartType shown = Widget.type selected).
Proof.
  intros p selection. subst p selection. split.
  - intros Hnone. unfold exec, selectQuery, bind, getPage. simpl.
    by rewrite Hnone.
  - intros selected Hselected after. subst after.
    assert (Hexec : exec (selectQuery query) w =
      World.mk
        (Page.mk (Page.dashboardName (World.page w))
           (Page.dashboardDescription (World.page w))
           (updateWidget (Widget.id selected) (bindQuery query)
              (Page.dashboardState (World.page w)))
           false (Page.selectedWidgetId (World.page w))
           (Page.showDashboardsDialog (World.page w)))
        (World.store w) (World.log w)).
    { unfold exec, selectQuery, bind, getPage. simpl. by rewrite Hselected. }
    rewrite Hexec. simpl.
    destruct (Page.selectedWidgetId (World.page w)) as [id|] eqn:Hsel;
      [|done].
    assert (Hid : Widget.id selected = id).
    { apply find_some in Hselected as [_ Heq]. by apply String.eqb_eq. }
    assert (Hbound :
      selectedWidgetData
        (updateWidget (Widget.id selected) (bindQuery query)
           (Page.dashboardState (World.page w))) (Some id) =
      Some (merge selected (bindQuery query))).
    { rewrite Hid. unfold selectedWidgetData in *. simpl.
      rewrite (find_map_id
                 (fun w => if String.eqb (Widget.id w) id
                           then merge w (bindQuery query) else w)).
      - rewrite Hselected. simpl. by rewrite <- Hid, String.eqb_refl.
      - intros w'. by destruct (String.eqb (Widget.id w') id). }
    split; [done|]. split; [done|]. split; [exact Hbound|].
    intros shown. unfold onChangeQuery. rewrite Hid.
    unfold selectedWidgetData in *. simpl.
    rewrite (find_map_id
               (fun w => if String.eqb (Widget.id w) id
                         then merge w unbindQuery else w)).
    + simpl in Hbound. rewrite Hid in Hbound. rewrite Hbound. simpl.
      rewrite <- Hid at 1. rewrite String.eqb_refl.
      by intros [= <-].
    + intros w'. by destruct (String.eqb (Widget.id w') id).
Qed.

Lemma selectQuery_binds_selected_witness :
  exec (selectQuery (sampleQuery "select 1"))
       (World.mk initialPage ∅ []) =
  World.mk initialPage ∅ [].
Proof.
  apply (selectQuery_binds_selected (sampleQuery "select 1")
           (World.mk initialPage ∅ [])).
  reflexivity.
Defined.

(** ** Where the builder's routes lead *)







(** * The authentication context *)

Section AuthProperties.
Import Auth.
Context {S : Type} (backend : Backend S).

Lemma run_Await {R X : Type} (request : Request X)
    (k : Outcome X -> Prog R) (s : S) :
  run backend (Await request k) s =
  let (o, s') := backend _ request s in
  let '(r, s'', steps) := run backend (k o) s' in
  (r, s'', requested request :: steps).
Proof. reflexivity. Qed.

Lemma run_Do {R : Type} (effect : Effect) (k : Prog R) (s : S) :
  run backend (Do effect k) s =
  let '(r, s', steps) := run backend k s in (r, s', did effect :: steps).
Proof. reflexivity. Qed.

(** X21: when the sign-up request is rejected, or is answered with an
    error whose message does not contain "already registered", [signUp]
    logs that error and resolves with it; it has awaited nothing else: no
    sign-in, no profile row, no redirect. *)
Theorem signUp_stops_on_failure (origin email password : string)
    (userData : option UserData.t) (s s' : S)
    (o : Outcome AuthResponse.t) (e : Error.t) :
  backend _ (auth_signUp email password (origin +:+ "/") userData) s = (o, s') ->
  o = Rejected e
  \/ (exists response,
        o = Resolved response /\ AuthResponse.error response = Some e
        /\ includes "already registered" (Error.message e) = false) ->
  run backend (signUp origin email password userData) s =
  (Result.mk (Some (thrown e)), s',
   [requested (auth_signUp email password (origin +:+ "/") userData);
    did (console_error "Sign up error:" e)]).
Proof.
  intros Hanswer [-> | (response & -> & Herror & Hincludes)];
    unfold signUp; simpl; rewrite Hanswer; [done|].
  by rewrite Herror, Hincludes.
Qed.


(** X23: when the sign-in request is answered with an error whose
    message contains "Invalid login credentials", [signIn] logs that it
    creates an account and turns into [signUp] with user data made up
    from the email (user name and full name the part before the first
    "@", role analyst): it does what that [signUp] does and resolves with
    what it resolves with. *)
Theorem signIn_falls_back_to_signUp (origin email password : string)
    (s s' : S) (response : AuthResponse.t) (e : Error.t) :
  backend _ (auth_signInWithPassword email password) s =
    (Resolved response, s') ->
  AuthResponse.error response = Some e ->
  includes "Invalid login credentials" (Error.message e) = true ->
  let created :=
    run backend (signUp origin email password (Some (defaultUserData email))) s' in
  run backend (signIn origin email password) s =
  (created.1.1, created.1.2,
   requested (auth_signInWithPassword email password)
   :: did (console_log "User not found, creating account...")
   :: created.2).
Proof.
  intros Hanswer Herror Hincludes created. subst created.
  unfold signIn. rewrite run_Await, Hanswer. cbv beta iota zeta.
  rewrite Herror, Hincludes, run_Do.
  by destruct (run backend
                 (signUp origin email password (Some (defaultUserData email)))
                 s') as [[r s''] steps].
Qed.

(** X24: a wrong password for an account that exists.  When the backend
    answers both sign-in requests with "Invalid login credentials" and
    the sign-up request with an error that contains "already registered",
    [signIn] awaits exactly three requests (sign in, sign up, sign in
    again with the same credentials), upserts no profile, schedules no
    redirect, and resolves with the second sign-in error, logged under
    the label of [signUp]. *)
Theorem signIn_wrong_password (origin email password : string)
    (s s1 s2 s3 : S) (first second signedUp : AuthResponse.t)
    (e1 e2 e3 : Error.t) :
  backend _ (auth_signInWithPassword email password) s = (Resolved first, s1) ->
  AuthResponse.error first = Some e1 ->
  includes "Invalid login credentials" (Error.message e1) = true ->
  backend _ (auth_signUp email password (origin +:+ "/")
               (Some (defaultUserData email))) s1 = (Resolved signedUp, s2) ->
  AuthResponse.error signedUp = Some e2 ->
  includes "already registered" (Error.message e2) = true ->
  backend _ (auth_signInWithPassword email password) s2 = (Resolved second, s3) ->
  AuthResponse.error second = Some e3 ->
  run backend (signIn origin email password) s =
  (Result.mk (Some (thrown e3)), s3,
   [requested (auth_signInWithPassword email password);
    did (console_log "User not found, creating account...");
    requested (auth_signUp email password (origin +:+ "/")
                 (Some (defaultUserData email)));
    requested (auth_signInWithPassword email password);
    did (console_error "Sign up error:" e3)]).
Proof.
  intros H1 He1 Hi1 H2 He2 Hi2 H3 He3.
  unfold signIn. simpl. rewrite H1, He1, Hi1. simpl.
  rewrite H2, He2, Hi2. simpl. by rewrite H3, He3.
Qed.

(** X25: [updateProfile] without a user resolves with the text "No user
    found" and awaits nothing.  With a user, an update that is rejected
    or answered with an error resolves with that error and the profile
    is not read back; an update that succeeds is followed by the select
    of the profile, and [updateProfile] then resolves without error
    whatever the select yields: its failure reaches the console only, and
    the profile hook is set only when it succeeds. *)
Theorem updateProfile_outcomes (user : option User.t)
    (updates : list (string * value)) (s : S) :
  match user with
  | None =>
      run backend (updateProfile user updates) s =
      (Result.mk (Some (text "No user found")), s, [])
  | Some u =>
      forall o s1, backend _ (profiles_update updates (User.id u)) s = (o, s1) ->
      match o with
      | Rejected e | Resolved (Some e) =>
          run backend (updateProfile user updates) s =
          (Result.mk (Some (thrown e)), s1,
           [requested (profiles_update updates (User.id u))])
      | Resolved None =>
          forall o' s2,
            backend _ (profiles_select_single (User.id u)) s1 = (o', s2) ->
            run backend (updateProfile user updates) s =
            (ok, s2,
             [requested (profiles_update updates (User.id u));
              requested (profiles_select_single (User.id u));
              match o' with
              | Rejected e => did (console_error "Error fetching profile:" e)
              | Resolved r =>
                  match SelectResponse.error r with
                  | Some e => did (console_error "Error fetching profile:" e)
                  | None => did (setProfile (SelectResponse.data r))
                  end
              end])
      end
  end.
Proof.
  destruct user as [u|]; [|done].
  intros o s1 Hupdate. unfold updateProfile. simpl.
  destruct o as [[e|]|e]; rewrite Hupdate; try done.
  intros o' s2 Hselect. simpl. rewrite Hselect.
  destruct o' as [r|e]; [|done].
  by destruct (SelectResponse.error r).
Qed.

(** X26: [signOut] clears the user, the session and the profile and
    sends the browser to "/auth" whenever the sign-out request resolves,
    also when the response carries an error, which is not looked at; when
    the request rejects, the rejection is logged, the hooks stay as they
    are and the browser stays where it is. *)
Theorem signOut_outcomes (s s' : S) (o : Outcome (option Error.t))
    (hooks : Hooks.t) :
  backend _ auth_signOut_global s = (o, s') ->
  match o with
  | Resolved _ =>
      run backend signOut s =
      (tt, s',
       [requested auth_signOut_global; did (setUser None);
        did (setSession None); did (setProfile None);
        did (location_href "/auth")])
      /\ applySteps (run backend signOut s).2 hooks =
         Hooks.mk None None None (Hooks.loading hooks)
  | Rejected e =>
      run backend signOut s =
      (tt, s',
       [requested auth_signOut_global;
        did (console_error "Error signing out:" e)])
      /\ applySteps (run backend signOut s).2 hooks = hooks
  end.
Proof.
  intros Hanswer. unfold signOut. simpl. rewrite Hanswer.
  destruct o as [response|e]; simpl; [done|]. by destruct hooks.
Qed.

End AuthProperties.

Lemma signUp_stops_on_failure_witness :
  Auth.run unreachableBackend
    (Auth.signUp "https://app.example" "ada@example.org" "secret" None) tt =
  (Auth.Result.mk (Some (Auth.thrown networkDown)), tt,
   [Auth.requested
      (Auth.auth_signUp "ada@example.org" "secret"
         ("https://app.example" +:+ "/") None);
    Auth.did (Auth.console_error "Sign up error:" networkDown)]).
Proof.
  apply (signUp_stops_on_failure unreachableBackend "https://app.example"
           "ada@example.org" "secret" None tt tt
           (Auth.Rejected networkDown) networkDown).
  - reflexivity.
  - left. reflexivity.
Defined.


Lemma signIn_falls_back_to_signUp_witness :
  let created :=
    Auth.run wrongPasswordBackend
      (Auth.signUp "https://app.example" "ada@example.org" "guess"
         (Some (Auth.defaultUserData "ada@example.org"))) tt in
  Auth.run wrongPasswordBackend
    (Auth.signIn "https://app.example" "ada@example.org" "guess") tt =
  (created.1.1, created.1.2,
   Auth.requested (Auth.auth_signInWithPassword "ada@example.org" "guess")
   :: Auth.did (Auth.console_log "User not found, creating account...")
   :: created.2).
Proof.
  apply (signIn_falls_back_to_signUp wrongPasswordBackend
           "https://app.example" "ada@example.org" "guess" tt tt
           (Auth.AuthResponse.mk None None (Some invalidCredentials))
           invalidCredentials); reflexivity.
Defined.

Lemma signIn_wrong_password_witness :
  Auth.run wrongPasswordBackend
    (Auth.signIn "https://app.example" "ada@example.org" "guess") tt =
  (Auth.Result.mk (Some (Auth.thrown invalidCredentials)), tt,
   [Auth.requested (Auth.auth_signInWithPassword "ada@example.org" "guess");
    Auth.did (Auth.console_log "User not found, creating account...");
    Auth.requested
      (Auth.auth_signUp "ada@example.org" "guess"
         ("https://app.example" +:+ "/")
         (Some (Auth.defaultUserData "ada@example.org")));
    Auth.requested (Auth.auth_signInWithPassword "ada@example.org" "guess");
    Auth.did (Auth.console_error "Sign up error:" invalidCredentials)]).
Proof.
  apply (signIn_wrong_password wrongPasswordBackend "https://app.example"
           "ada@example.org" "guess" tt tt tt tt
           (Auth.AuthResponse.mk None None (Some invalidCredentials))
           (Auth.AuthResponse.mk None None (Some invalidCredentials))
           (Auth.AuthResponse.mk None None (Some alreadyRegistered))
           invalidCredentials alreadyRegistered invalidCredentials);
    reflexivity.
Defined.

Lemma updateProfile_outcomes_witness :
  Auth.run friendlyBackend
    (Auth.updateProfile None [("bio", VString "Analyst")]) tt =
  (Auth.Result.mk (Some (Auth.text "No user found")), tt, []).
Proof.
  apply (updateProfile_outcomes friendlyBackend None
           [("bio", VString "Analyst")] tt).
Defined.

Lemma signOut_outcomes_witness :
  Auth.run unreachableBackend Auth.signOut tt =
  (tt, tt,
   [Auth.requested Auth.auth_signOut_global;
    Auth.did (Auth.console_error "Error signing out:" networkDown)])
  /\ Auth.applySteps (Auth.run unreachableBackend Auth.signOut tt).2
       (Auth.Hooks.mk (Some sampleUser) (Some (Auth.Session.mk sampleUser))
          None false) =
     Auth.Hooks.mk (Some sampleUser) (Some (Auth.Session.mk sampleUser))
       None false.
Proof.
  apply (signOut_outcomes unreachableBackend tt tt
           (Auth.Rejected networkDown)
           (Auth.Hooks.mk (Some sampleUser)
              (Some (Auth.Session.mk sampleUser)) None false)).
  reflexivity.
Defined.

(** ** Names made up from an email *)

Lemma code_at c : (code c =? 64)%N = true -> c = "@"%char.
Proof.
  intros Hc. apply N.eqb_eq in Hc. rewrite <- (ascii_N_embedding c).
  unfold code in Hc. by rewrite Hc.
Qed.

Lemma before_at_split email :
  email = Auth.before_at email
  \/ exists rest, email = Auth.before_at email +:+ "@" +:+ rest.
Proof.
  induction email as [|c email IH]; simpl; [by left|].
  destruct (code c =? 64)%N eqn:Hc.
  - apply code_at in Hc as ->. right. by exists email.
  - destruct IH as [IH|(rest & IH)].
    + left. f_equal. exact IH.
    + right. exists rest.
      change (String c email =
              String c (Auth.before_at email +:+ "@" +:+ rest)).
      f_equal. exact IH.
Qed.

Lemma before_at_no_at email :
  Auth.includes "@" (Auth.before_at email) = false.
Proof.
  induction email as [|c email IH]; [reflexivity|].
  change (Auth.before_at (String c email))
    with (if (code c =? 64)%N then EmptyString
          else String c (Auth.before_at email)).
  destruct (code c =? 64)%N eqn:Hc; [reflexivity|].
  change (Auth.includes "@" (String c (Auth.before_at email)))
    with (if match ascii_dec "@" c with
             | left _ => String.prefix "" (Auth.before_at email)
             | right _ => false
             end
          then true
          else Auth.includes "@" (Auth.before_at email)).
  destruct (ascii_dec "@" c) as [<-|_]; [discriminate Hc|exact IH].
Qed.

(** X27: the name the context makes up from an email is the part before
    the first "@": it holds no "@", and the email is that name alone or
    that name, an "@" and a rest.  [signIn] hands it to [signUp] as user
    name and full name, and [signUp] writes it into the profile row;
    when it is empty, as for an email that starts with "@", the row
    [signIn] itself writes has the user name "user" instead. *)
Theorem made_up_user_name (email : string) (user : Auth.User.t) :
  let name := Auth.before_at email in
  Auth.includes "@" name = false
  /\ (email = name \/ exists rest, email = name +:+ "@" +:+ rest)
  /\ Auth.UserData.username (Auth.defaultUserData email) = Some name
  /\ Auth.UserData.full_name (Auth.defaultUserData email) = Some name
  /\ Auth.Row.username
       (Auth.signUpRow user email (Some (Auth.defaultUserData email))) = name
  /\ Auth.Row.username
       (Auth.signInRow
          (Auth.User.mk (Auth.User.id user) (Some email)
             (Auth.User.user_metadata user))) =
     (if truthy name then name else "user").
Proof.
  intros name. subst name.
  split; [apply before_at_no_at|]. split; [apply before_at_split|].
  split; [done|]. split; [done|]. split; [|done].
  simpl. unfold or_else. by destruct (truthy (Auth.before_at email)).
Qed.

(** ** Substrings *)

Lemma prefix_append needle haystack :
  String.prefix needle haystack = true <->
  exists post, haystack = needle +:+ post.
Proof.
  revert haystack. induction needle as [|a needle IH]; intros haystack.
  - split; [intros _; by exists haystack|intros _; by destruct haystack].
  - destruct haystack as [|b haystack].
    + split; [done|]. by intros (post & Hpost).
    + change (String.prefix (String a needle) (String b haystack))
        with (match ascii_dec a b with
              | left _ => String.prefix needle haystack
              | right _ => false
              end).
      destruct (ascii_dec a b) as [->|Hne].
      * rewrite IH. split; intros (post & Hpost); exists post.
        -- change (String b haystack = String b (needle +:+ post)).
           by f_equal.
        -- change (String b haystack = String b (needle +:+ post)) in Hpost.
           by injection Hpost.
      * split; [done|]. intros (post & Hpost).
        change (String b haystack = String a (needle +:+ post)) in Hpost.
        injection Hpost as Hab _. by destruct Hne.
Qed.

(** X28: the test the context runs on error messages,
    [message.includes(needle)], holds exactly when the message is some
    text, the needle and some text; so "User already registered" passes
    the test of [signUp] and "Invalid login credentials" that of
    [signIn], wherever in the message they stand. *)
Theorem includes_substring (needle haystack : string) :
  Auth.includes needle haystack = true <->
  exists pre post, haystack = pre +:+ needle +:+ post.
Proof.
  induction haystack as [|c haystack IH].
  - change (Auth.includes needle "")
      with (if String.prefix needle "" then true else false).
    destruct (String.prefix needle "") eqn:Hprefix.
    + split; [intros _|done]. apply prefix_append in Hprefix as (post & Hpost).
      by exists "", post.
    + split; [done|]. intros (pre & post & Hpost).
      destruct pre as [|a pre]; [|discriminate Hpost].
      assert (Htrue : String.prefix needle "" = true).
      { apply prefix_append. by exists post. }
      congruence.
  - change (Auth.includes needle (String c haystack))
      with (if String.prefix needle (String c haystack) then true
            else Auth.includes needle haystack).
    destruct (String.prefix needle (String c haystack)) eqn:Hprefix.
    + split; [intros _|done]. apply prefix_append in Hprefix as (post & Hpost).
      by exists "", post.
    + rewrite IH. split.
      * intros (pre & post & ->). by exists (String c pre), post.
      * intros (pre & post & Hpost). destruct pre as [|a pre].
        -- assert (Htrue : String.prefix needle (String c haystack) = true).
           { apply prefix_append. by exists post. }
           congruence.
        -- change (String c haystack = String a (pre +:+ needle +:+ post))
             in Hpost.
           injection Hpost as _ ->. by exists pre, post.
Qed.

(** ** Authentication events *)

(** X29: the listener of authentication events and the check of the
    session on mount await no request.  Both leave the hooks with the
    session handed in, its user and [loading] false, and with a session
    both put the fetch of the profile on a timer and leave the profile
    hook as it is; without a session the listener clears the profile,
    while the check on mount leaves it. *)
Theorem auth_events_settle_hooks {S : Type} (backend : Auth.Backend S)
    (session : option Auth.Session.t) (hooks : Auth.Hooks.t) (s : S) :
  let listener := Auth.run backend (Auth.onAuthStateChange session) s in
  let mounted := Auth.run backend (Auth.onInitialSession session) s in
  Forall (fun step => Auth.is_request step = false) listener.2
  /\ Forall (fun step => Auth.is_request step = false) mounted.2
  /\ listener.1.2 = s /\ mounted.1.2 = s
  /\ Auth.applySteps listener.2 hooks =
       Auth.Hooks.mk (Auth.Session.user <$> session) session
         (match session with
          | Some _ => Auth.Hooks.profile hooks
          | None => None
          end) false
  /\ Auth.applySteps mounted.2 hooks =
       Auth.Hooks.mk (Auth.Session.user <$> session) session
         (Auth.Hooks.profile hooks) false
  /\ (forall current, session = Some current ->
        Auth.did
          (Auth.setTimeout_fetchProfile
             (Auth.User.id (Auth.Session.user current)) 0) ∈ listener.2
        /\ Auth.did
             (Auth.setTimeout_fetchProfile
                (Auth.User.id (Auth.Session.user current)) 0) ∈ mounted.2).
Proof.
  destruct session as [current|]; simpl.
  - split; [by repeat constructor|]. split; [by repeat constructor|].
    do 4 (split; [done|]).
    intros current' [= <-]. split; find_elem.
  - split; [by repeat constructor|]. split; [by repeat constructor|].
    do 4 (split; [done|]).
    intros current' [=].
Qed.

(** ** Commas *)

Lemma no_comma_cons c r :
  no_comma (String c r) = negb (code c =? 44)%N && no_comma r.
Proof. reflexivity. Qed.

Lemma comma_stays c r :
  (code c =? 44)%N = false -> no_comma (String c r) = false ->
  no_comma r = false.
Proof. rewrite no_comma_cons. by intros ->. Qed.

Lemma between_bounds lo hi c :
  between lo hi c = true -> (lo <= code c <= hi)%N.
Proof.
  unfold between. intros [Hlo Hhi]%andb_true_iff.
  apply N.leb_le in Hlo, Hhi. lia.
Qed.

Lemma not_comma_between lo hi c :
  (44 < lo \/ hi < 44)%N -> between lo hi c = true -> (code c =? 44)%N = false.
Proof.
  intros Hrange Hc%between_bounds. apply N.eqb_neq. lia.
Qed.

Lemma is_ws1_not_comma c : is_ws1 c = true -> (code c =? 44)%N = false.
Proof.
  unfold is_ws1. intros [Hc|Hc]%orb_true_iff.
  - apply (not_comma_between 9 13); [lia|done].
  - apply N.eqb_eq in Hc. rewrite Hc. reflexivity.
Qed.

Lemma is_ws2_not_comma c1 c2 :
  is_ws2 c1 c2 = true ->
  (code c1 =? 44)%N = false /\ (code c2 =? 44)%N = false.
Proof.
  unfold is_ws2. intros [H1 H2]%andb_true_iff.
  apply N.eqb_eq in H1, H2. by rewrite H1, H2.
Qed.

Lemma is_ws3_not_comma c1 c2 c3 :
  is_ws3 c1 c2 c3 = true ->
  (code c1 =? 44)%N = false /\ (code c2 =? 44)%N = false
  /\ (code c3 =? 44)%N = false.
Proof.
  unfold is_ws3. intros H.
  assert (Hhigh : (128 <= code c1 /\ 128 <= code c2 /\ 128 <= code c3)%N).
  { repeat (apply orb_true_iff in H as [H|H]);
      repeat match goal with
             | H : _ && _ = true |- _ => apply andb_true_iff in H as [? ?]
             | H : _ || _ = true |- _ => apply orb_true_iff in H as [?|?]
             | H : (_ =? _)%N = true |- _ => apply N.eqb_eq in H
             | H : between _ _ _ = true |- _ => apply between_bounds in H
             end; lia. }
  repeat split; apply N.eqb_neq; lia.
Qed.

Lemma skip_ws_unfold c1 r1 :
  skip_ws (String c1 r1) =
  if is_ws1 c1 then skip_ws r1 else
  match r1 with
  | EmptyString => String c1 r1
  | String c2 r2 =>
      if is_ws2 c1 c2 then skip_ws r2 else
      match r2 with
      | EmptyString => String c1 r1
      | String c3 r3 =>
          if is_ws3 c1 c2 c3 then skip_ws r3 else String c1 r1
      end
  end.
Proof. reflexivity. Qed.

Lemma skip_ws_keeps_comma_upto n s :
  String.length s <= n -> no_comma s = false -> no_comma (skip_ws s) = false.
Proof.
  revert s. induction n as [|n IH]; intros s Hn Hs.
  { destruct s; [done|simpl in Hn; lia]. }
  destruct s as [|c1 r1]; [done|]. simpl in Hn. rewrite skip_ws_unfold.
  destruct (is_ws1 c1) eqn:H1.
  { apply IH; [lia|]. apply (comma_stays c1); [by apply is_ws1_not_comma|done]. }
  destruct r1 as [|c2 r2]; [done|]. simpl in Hn.
  destruct (is_ws2 c1 c2) eqn:H2.
  { apply is_ws2_not_comma in H2 as [Hc1 Hc2]. apply IH; [lia|].
    apply (comma_stays c2); [done|]. by apply (comma_stays c1). }
  destruct r2 as [|c3 r3]; [done|]. simpl in Hn.
  destruct (is_ws3 c1 c2 c3) eqn:H3; [|done].
  apply is_ws3_not_comma in H3 as (Hc1 & Hc2 & Hc3). apply IH; [lia|].
  apply (comma_stays c3); [done|]. apply (comma_stays c2); [done|]. by apply (comma_stays c1).
Qed.

Lemma skip_ws_keeps_comma s :
  no_comma s = false -> no_comma (skip_ws s) = false.
Proof. by apply (skip_ws_keeps_comma_upto (String.length s)). Qed.

Lemma skip_while_keeps_comma p s :
  (forall c, p c = true -> (code c =? 44)%N = false) ->
  no_comma s = false -> no_comma (skip_while p s) = false.
Proof.
  intros Hp. induction s as [|c r IH]; [done|]. simpl skip_while.
  destruct (p c) eqn:Hc; [|done].
  intros Hs. apply IH. apply (comma_stays c); [by apply Hp|done].
Qed.

Lemma digits1_keeps_comma p s rest :
  (forall c, p c = true -> (code c =? 44)%N = false) ->
  digits1 p s = Some rest -> no_comma s = false -> no_comma rest = false.
Proof.
  intros Hp. destruct s as [|c r]; [done|]. simpl digits1.
  destruct (p c) eqn:Hc; [|done]. intros [= <-] Hs.
  apply skip_while_keeps_comma; [done|]. apply (comma_stays c); [by apply Hp|done].
Qed.

Lemma is_dec_not_comma c : is_dec c = true -> (code c =? 44)%N = false.
Proof. apply not_comma_between. lia. Qed.

Lemma is_bin_not_comma c : is_bin c = true -> (code c =? 44)%N = false.
Proof. apply not_comma_between. lia. Qed.

Lemma is_oct_not_comma c : is_oct c = true -> (code c =? 44)%N = false.
Proof. apply not_comma_between. lia. Qed.

Lemma is_hex_not_comma c : is_hex c = true -> (code c =? 44)%N = false.
Proof.
  unfold is_hex. intros [[Hc|Hc]%orb_true_iff|Hc]%orb_true_iff;
    revert Hc; apply not_comma_between; lia.
Qed.

Lemma skip_sign_keeps_comma s :
  no_comma s = false -> no_comma (skip_sign s) = false.
Proof.
  destruct s as [|c r]; [done|]. simpl skip_sign.
  destruct (is_sign c) eqn:Hc; [|done]. apply comma_stays.
  unfold is_sign in Hc. apply orb_true_iff in Hc as [Hc|Hc];
    apply N.eqb_eq in Hc; by rewrite Hc.
Qed.

Lemma strip_prefix_keeps_comma p s rest :
  no_comma p = true -> strip_prefix p s = Some rest ->
  no_comma s = false -> no_comma rest = false.
Proof.
  revert s. induction p as [|a p IH]; intros s Hp; simpl strip_prefix.
  { by intros [= <-]. }
  destruct s as [|b s]; [done|].
  destruct (Ascii.eqb_spec a b) as [<-|_]; [|done].
  rewrite no_comma_cons in Hp. apply andb_true_iff in Hp as [Ha Hp].
  apply negb_true_iff in Ha. intros Hrest Hs.
  apply (IH s Hp Hrest). by apply (comma_stays a).
Qed.

Lemma exponent_opt_keeps_comma s rest :
  exponent_opt s = Some rest -> no_comma s = false -> no_comma rest = false.
Proof.
  destruct s as [|c r]; [by intros [= <-]|]. unfold exponent_opt.
  destruct ((code c =? 101)%N || (code c =? 69)%N) eqn:Hc;
    [|by intros [= <-]].
  intros Hrest Hs.
  apply (digits1_keeps_comma is_dec (skip_sign r) rest is_dec_not_comma Hrest).
  apply skip_sign_keeps_comma. apply (comma_stays c); [|done].
  apply orb_true_iff in Hc as [Hc|Hc]; apply N.eqb_eq in Hc; by rewrite Hc.
Qed.

Lemma StrUnsignedDecimalLiteral_keeps_comma s rest :
  StrUnsignedDecimalLiteral s = Some rest ->
  no_comma s = false -> no_comma rest = false.
Proof.
  unfold StrUnsignedDecimalLiteral.
  destruct (strip_prefix "Infinity" s) as [r|] eqn:Hinf.
  { intros [= <-]. by apply (strip_prefix_keeps_comma "Infinity" s r). }
  assert (Hdigits : forall t rest',
            digits1 is_dec t ≫= exponent_opt = Some rest' ->
            no_comma t = false -> no_comma rest' = false).
  { intros t rest' Ht Hcomma.
    destruct (digits1 is_dec t) as [r|] eqn:Hr; [|done]. simpl in Ht.
    apply (exponent_opt_keeps_comma r rest' Ht).
    by apply (digits1_keeps_comma is_dec t r is_dec_not_comma). }
  assert (Hgeneral :
    (digits1 is_dec s ≫= fun r =>
       match r with
       | String "." r' => exponent_opt (skip_while is_dec r')
       | _ => exponent_opt r
       end) = Some rest ->
    no_comma s = false -> no_comma rest = false).
  { intros Hs Hcomma.
    destruct (digits1 is_dec s) as [r|] eqn:Hr; [|done]. simpl in Hs.
    pose proof (digits1_keeps_comma is_dec s r is_dec_not_comma Hr Hcomma)
      as Hrcomma.
    assert (Hplain : exponent_opt r = Some rest -> no_comma rest = false).
    { intros Hplain. by apply (exponent_opt_keeps_comma r rest). }
    destruct r as [|c r']; [by apply Hplain|].
    destruct (Ascii.eqb_spec c ".") as [->|Hc].
    - apply (exponent_opt_keeps_comma _ rest Hs).
      apply skip_while_keeps_comma; [apply is_dec_not_comma|].
      by apply (comma_stays "."%char).
    - apply Hplain. revert Hs.
      by destruct c as [[] [] [] [] [] [] [] []]. }
  destruct s as [|c r]; [done|].
  destruct (Ascii.eqb_spec c ".") as [->|Hc].
  - intros Hs Hcomma. apply (Hdigits r rest Hs).
    by apply (comma_stays "."%char).
  - intros Hs. apply Hgeneral. revert Hs.
    by destruct c as [[] [] [] [] [] [] [] []].
Qed.

Lemma StrNumericLiteral_keeps_comma s rest :
  StrNumericLiteral s = Some rest ->
  no_comma s = false -> no_comma rest = false.
Proof.
  assert (Hdec : StrUnsignedDecimalLiteral (skip_sign s) = Some rest ->
                 no_comma s = false -> no_comma rest = false).
  { intros Hlit Hs.
    apply (StrUnsignedDecimalLiteral_keeps_comma (skip_sign s) rest Hlit).
    by apply skip_sign_keeps_comma. }
  unfold StrNumericLiteral. cbv zeta.
  destruct s as [|c0 r0]; [exact Hdec|].
  destruct (Ascii.eqb_spec c0 "0") as [->|Hc0].
  - destruct r0 as [|c r]; [exact Hdec|]. cbv beta iota.
    assert (Hr : forall a b, (code c =? a)%N || (code c =? b)%N = true ->
                 a <> 44%N -> b <> 44%N ->
                 no_comma (String "0" (String c r)) = false ->
                 no_comma r = false).
    { intros a b Hc Ha Hb Hs. apply (comma_stays c).
      - apply orb_true_iff in Hc as [Hc|Hc]; apply N.eqb_eq in Hc;
          rewrite Hc; by apply N.eqb_neq.
      - by apply (comma_stays "0"%char). }
    destruct ((code c =? 120)%N || (code c =? 88)%N) eqn:Hx.
    { intros Hlit Hs.
      apply (digits1_keeps_comma is_hex r rest is_hex_not_comma Hlit).
      by apply (Hr 120%N 88%N). }
    destruct ((code c =? 111)%N || (code c =? 79)%N) eqn:Ho.
    { intros Hlit Hs.
      apply (digits1_keeps_comma is_oct r rest is_oct_not_comma Hlit).
      by apply (Hr 111%N 79%N). }
    destruct ((code c =? 98)%N || (code c =? 66)%N) eqn:Hb; [|exact Hdec].
    intros Hlit Hs.
    apply (digits1_keeps_comma is_bin r rest is_bin_not_comma Hlit).
    by apply (Hr 98%N 66%N).
  - intros Hlit. apply Hdec. revert Hlit.
    by destruct c0 as [[] [] [] [] [] [] [] []].
Qed.

Lemma StringToNumber_isNaN_comma s :
  no_comma s = false -> StringToNumber_isNaN s = true.
Proof.
  intros Hs%skip_ws_keeps_comma. unfold StringToNumber_isNaN.
  destruct (skip_ws s) as [|c r]; [done|].
  destruct (StrNumericLiteral (String c r)) as [rest|] eqn:Hlit; [|done].
  apply StrNumericLiteral_keeps_comma in Hlit; [|done].
  apply skip_ws_keeps_comma in Hlit. by destruct (skip_ws rest).
Qed.

Lemma no_comma_app s t : no_comma (s +:+ t) = no_comma s && no_comma t.
Proof.
  induction s as [|c s IH]; [done|].
  change (String c s +:+ t) with (String c (s +:+ t)).
  by rewrite !no_comma_cons, IH, andb_assoc.
Qed.

Lemma join_two_has_comma a b items :
  no_comma (join "," (a :: b :: items)) = false.
Proof.
  change (join "," (a :: b :: items))
    with (a +:+ "," +:+ join "," (b :: items)).
  rewrite !no_comma_app. change (no_comma ",") with false.
  by rewrite andb_false_r.
Qed.

(** X30: a cell of the first row whose text contains a comma, such as a
    figure written with thousands separators, and a cell that is an array
    of two items or more, never make their key a Y-axis candidate: an array
    is converted through its items joined by commas, and no numeric literal
    holds a comma. *)
Theorem comma_cells_are_no_candidates (q : SavedQuery.t)
    (row : list (string * value)) (rows : list (list (string * value)))
    (key : string) (v : value)
    (Hfirst : firstResults q = Some (row :: rows))
    (Hv : Get row key = Some v)
    (Hcell : (exists s, v = VString s /\ no_comma s = false)
             \/ (exists a b items, v = VArray (a :: b :: items))) :
  key ∉ yAxisOptions q.
Proof.
  rewrite (elem_of_yAxisOptions q row rows key v Hfirst Hv).
  assert (Hnan : typeof_number v = false /\ isNaN_Number v = true).
  { destruct Hcell as [(s & -> & Hs)|(a & b & items & ->)].
    - split; [done|]. by apply StringToNumber_isNaN_comma.
    - split; [done|]. apply StringToNumber_isNaN_comma.
      apply join_two_has_comma. }
  destruct Hnan as [-> ->]. done.
Qed.

Lemma comma_cells_are_no_candidates_witness :
  ("volume" ∉ yAxisOptions
    (SavedQuery.mk "q-17" "Daily volume" None "select day, volume from t"
       (Some [ResultSet.mk
                (Some [[("day", VString "2024-11-02");
                        ("volume", VString "1,250")]])])))
  /\ ("pair" ∉ yAxisOptions
    (SavedQuery.mk "q-18" "Pairs" None "select pair from t"
       (Some [ResultSet.mk
                (Some [[("pair", VArray [VNumber (Finite 3);
                                         VNumber (Finite 4)])]])]))).
Proof.
  split.
  - apply (comma_cells_are_no_candidates
             (SavedQuery.mk "q-17" "Daily volume" None
                "select day, volume from t"
                (Some [ResultSet.mk
                         (Some [[("day", VString "2024-11-02");
                                 ("volume", VString "1,250")]])]))
             [("day", VString "2024-11-02"); ("volume", VString "1,250")]
             [] "volume" (VString "1,250") eq_refl eq_refl).
    left. by exists "1,250".
  - apply (comma_cells_are_no_candidates
             (SavedQuery.mk "q-18" "Pairs" None "select pair from t"
                (Some [ResultSet.mk
                         (Some [[("pair", VArray [VNumber (Finite 3);
                                                  VNumber (Finite 4)])]])]))
             [("pair", VArray [VNumber (Finite 3); VNumber (Finite 4)])]
             [] "pair" (VArray [VNumber (Finite 3); VNumber (Finite 4)])
             eq_refl eq_refl).
    right. by eexists _, _, _.
Defined.
